(** * The 1&1 Cloud Server driver of libcloud: response decoding and entity mapping

    A shallow embedding of [libcloud/common/oneandone.py] and
    [libcloud/compute/drivers/oneandone.py], and the properties of the
    adapter's translation contract proved over it.

    Python values that reach the driver are decoded JSON documents; a
    dictionary is a finite map with string keys, an exception is a value of
    [exn], and a Python call that may raise returns a [result]. *)

From Stdlib Require Import ZArith String Ascii DecimalString.
From Stdlib Require Import Floats.SpecFloat.
From stdpp Require Import gmap strings list fin_maps.

Open Scope string_scope.
Open Scope Z_scope.

(** ** Python values *)

(** What [json.loads] produces: [None], booleans, unbounded integers, floats
    (kept as their IEEE decomposition), text, lists and dictionaries. *)
#[warnings="-register-all"]
Inductive json : Type :=
  | JNull
  | JBool (b : bool)
  | JInt (z : Z)
  | JFloat (f : spec_float)
  | JStr (s : string)
  | JList (l : list json)
  | JDict (d : gmap string json).

(** The exceptions the two modules raise themselves ([InvalidCredsError],
    [NotImplementedError], [ValueError]), the ones the interpreter raises
    while evaluating their bodies, and the two raised by the response base
    class. The specification's error kinds name them as follows:
    InvalidCredentials is [InvalidCredsError], UnsupportedVersion is
    [NotImplementedError], NodeCreationFailed is the [ValueError] of
    [create_node], MissingField is a failed lookup of a required field. *)
Inductive exn : Type :=
  | InvalidCredsError (value : json)
  | NotImplementedError (msg : string)
  | ValueError (msg : string)
  | KeyError (key : json)
  | IndexError
  | TypeError
  | AttributeError (attr : string)
  | UnboundLocalError (var : string)
  | OverflowError
  | MalformedResponseError
  | VendorError (payload : json).

Inductive result (A : Type) : Type :=
  | Ok (a : A)
  | Raise (e : exn).

Arguments Ok {A} a.
Arguments Raise {A} e.

#[global] Instance result_ret : MRet result := fun A a => Ok a.
#[global] Instance result_bind : MBind result := fun A B k m =>
  match m with
  | Ok a => k a
  | Raise e => Raise e
  end.

Definition raises {A} (m : result A) : Prop := exists e, m = Raise e.

(** What the interpreter and its standard library contribute beyond the
    operators below; their results differ between interpreter versions, so
    the driver is modelled over any choice of them.
    - [builtin_repr]: [str()] of a float, a list or a dictionary;
    - [builtin_int_text]: [int()] of a text, or the exception it raises;
    - [json_dumps]: [json.dumps]. *)
Class PyBuiltins : Type := {
  builtin_repr : json -> string;
  builtin_int_text : string -> result Z;
  json_dumps : json -> string
}.

(** ** Operators of the language *)

Definition str_of_int (z : Z) : string := NilZero.string_of_int (Z.to_int z).

(** [data[key]] for a text key. *)
Definition getitem (data : json) (key : string) : result json :=
  match data with
  | JDict d =>
      match d !! key with
      | Some v => Ok v
      | None => Raise (KeyError (JStr key))
      end
  | _ => Raise TypeError
  end.

(** [data[i]] for an integer index; a negative index counts from the end. *)
Definition getindex (data : json) (i : Z) : result json :=
  match data with
  | JList l =>
      let j := if i <? 0 then i + Z.of_nat (length l) else i in
      if j <? 0 then Raise IndexError
      else match l !! Z.to_nat j with
           | Some v => Ok v
           | None => Raise IndexError
           end
  | JStr s =>
      let j := if i <? 0 then i + Z.of_nat (String.length s) else i in
      if j <? 0 then Raise IndexError
      else match String.get (Z.to_nat j) s with
           | Some c => Ok (JStr (String c EmptyString))
           | None => Raise IndexError
           end
  | JDict _ => Raise (KeyError (JInt i))
  | _ => Raise TypeError
  end.

Definition is_text (key : string) (v : json) : bool :=
  match v with
  | JStr s => String.eqb s key
  | _ => false
  end.

(** [key in data] for a text key: a key of a dictionary, an element of a
    list, a substring of a text. *)
Definition contains (key : string) (data : json) : result bool :=
  match data with
  | JDict d => Ok (bool_decide (is_Some (d !! key)))
  | JList l => Ok (existsb (is_text key) l)
  | JStr s => Ok (bool_decide (is_Some (String.index 0 key s)))
  | _ => Raise TypeError
  end.

(** [data.get(key, default)]; only dictionaries have the method. *)
Definition dict_get (data : json) (key : string) (fallback : json) : result json :=
  match data with
  | JDict d => Ok (default fallback (d !! key))
  | _ => Raise (AttributeError "get")
  end.

(** [v == 'text'] for a text literal. *)
Definition eq_text (v : json) (text : string) : bool := is_text text v.

(** The elements [for x in data] visits: the items of a list, the keys of a
    dictionary (here in the order of the map; the interpreter visits them in
    insertion order), the characters of a text. *)
Definition py_iter (data : json) : result (list json) :=
  match data with
  | JList l => Ok l
  | JDict d => Ok (JStr <$> (map_to_list d).*1)
  | JStr s => Ok ((fun c => JStr (String c EmptyString)) <$> list_ascii_of_string s)
  | _ => Raise TypeError
  end.

(** [list(map(f, data))]: [f] is applied to the elements in order and the
    first exception ends the traversal. *)
Definition list_map {A} (f : json -> result A) (data : json) : result (list A) :=
  items ← py_iter data;
  mapM f items.

(** [int(f)] for a float: truncation towards zero. *)
Definition int_of_float (f : spec_float) : result Z :=
  match f with
  | S754_zero _ => Ok 0
  | S754_infinity _ => Raise OverflowError
  | S754_nan => Raise (ValueError "cannot convert float NaN to integer")
  | S754_finite s m e =>
      let magnitude := Z.shiftl (Z.pos m) e in
      Ok (if s then - magnitude else magnitude)
  end.

Section Builtins.
Context `{PyBuiltins}.

(** [str(v)], which is what the [%s] conversion applies. *)
Definition py_str (v : json) : string :=
  match v with
  | JNull => "None"
  | JBool true => "True"
  | JBool false => "False"
  | JInt z => str_of_int z
  | JStr s => s
  | JFloat _ | JList _ | JDict _ => builtin_repr v
  end.

(** [int(v)]. *)
Definition py_int (v : json) : result Z :=
  match v with
  | JInt z => Ok z
  | JBool b => Ok (if b then 1 else 0)
  | JFloat f => int_of_float f
  | JStr s => builtin_int_text s
  | JNull | JList _ | JDict _ => Raise TypeError
  end.
End Builtins.

(** ** [libcloud.utils.py3.httplib]: the status codes the module names *)

Module httplib.
Definition OK : Z := 200.
Definition CREATED : Z := 201.
Definition ACCEPTED : Z := 202.
Definition NO_CONTENT : Z := 204.
Definition UNAUTHORIZED : Z := 401.
End httplib.

(** ** [libcloud/common/oneandone.py] *)

(** A response as [OneAndOne_v1_Response] sees it: the status code, and the
    outcome of [JsonResponse.parse_body] (the decoder itself belongs to
    [libcloud.common.base]). *)
Record Response : Type := {
  status : Z;
  parse_body : result json
}.

Module OneAndOne_v1_Response.
Definition valid_response_codes : list Z :=
  [httplib.OK; httplib.ACCEPTED; httplib.CREATED; httplib.NO_CONTENT].

Definition success (self : Response) : bool :=
  existsb (Z.eqb (status self)) valid_response_codes.

Section WithBuiltins.
Context `{PyBuiltins}.

Definition parse_error (self : Response) : result json :=
  if status self =? httplib.UNAUTHORIZED then
    body ← parse_body self;
    message ← getitem body "message";
    Raise (InvalidCredsError message)
  else
    body ← parse_body self;
    has_message ← contains "message" body;
    if has_message : bool then
      message ← getitem body "message";
      Ok (JStr (py_str message ++ " (code: " ++ py_str (JInt (status self)) ++ ")"))
    else
      Ok body.
End WithBuiltins.
End OneAndOne_v1_Response.

(** ** The entities of [libcloud.compute.base] and [libcloud.compute.types] *)

(** The lifecycle states the driver assigns. *)
Module NodeState.
Inductive t : Type := RUNNING | REBOOTING | PENDING | UNKNOWN.
End NodeState.

(** Modelled from the spec: the constructors of [Node], [NodeImage],
    [NodeLocation] and [NodeSize] (libcloud.compute.base) are not part of
    these sources; each entity is the immutable value made of the arguments
    it was built from, taken verbatim. The [driver] back-reference is left
    out. *)
Module Node.
Record t : Type := Make {
  id : json;
  name : json;
  state : NodeState.t;
  public_ips : list json;
  private_ips : option (list json);
  extra : gmap string json
}.
End Node.

Module NodeImage.
Record t : Type := Make {
  id : json;
  name : json;
  extra : gmap string json
}.
End NodeImage.

Module NodeLocation.
Record t : Type := Make {
  id : json;
  name : json;
  country : json
}.
End NodeLocation.

Module NodeSize.
Record t : Type := Make {
  id : json;
  name : json;
  ram : Z;
  disk : json;
  bandwidth : Z;
  price : Z;
  extra : gmap string json
}.
End NodeSize.

(** ** The connection of [libcloud.common.base] *)

Record HttpRequest : Type := {
  action : string;
  data : option string;
  method : string
}.

(** The remote end: the response the server gives to a request. *)
Definition Connection : Type := HttpRequest -> Response.

Section Request.
Context `{PyBuiltins}.

(** Modelled from the spec: [Connection.request] and the constructor of the
    response class (libcloud.common.base) are not part of these sources. A
    response that is not [success] is raised as an error carrying what
    [parse_error] returns (or the exception [parse_error] raises itself);
    otherwise the caller receives the decoded body, the [object] of the
    response. *)
Definition request (connection : Connection) (req : HttpRequest) : result json :=
  let response := connection req in
  if OneAndOne_v1_Response.success response then parse_body response
  else
    payload ← OneAndOne_v1_Response.parse_error response;
    Raise (VendorError payload).
End Request.

(** ** [libcloud/compute/drivers/oneandone.py] *)

(** The classes [__new__] can be entered with and can return an instance of. *)
Inductive driver_class : Type :=
  | OneAndOneNodeDriver
  | OneAndOne_v1_NodeDriver.

Definition is_facade (cls : driver_class) : bool :=
  match cls with
  | OneAndOneNodeDriver => true
  | OneAndOne_v1_NodeDriver => false
  end.

(** [OneAndOneNodeDriver.__new__(cls, key, secret, api_version)]: the class
    of the instance it creates. [key] is [None] or a text. *)
Definition __new__ (cls : driver_class) (key secret : option string)
    (api_version : string) : result driver_class :=
  if is_facade cls then
    match key with
    | None => Raise (InvalidCredsError (JStr "key missing for v1 authentication"))
    | Some _ => Ok OneAndOne_v1_NodeDriver
    end
  else
    Raise (NotImplementedError ("Unsupported API version: " ++ api_version)).

(** Constructing the facade: [OneAndOneNodeDriver(key, secret, api_version)]. *)
Definition construct_facade (key secret : option string) (api_version : string)
    : result driver_class :=
  __new__ OneAndOneNodeDriver key secret api_version.

Module OneAndOne_v1_NodeDriver.
Import NodeState.

Definition NODE_STATE_MAP : gmap string NodeState.t :=
  {[ "DEPLOYING" := PENDING;
     "POWERED_OFF" := REBOOTING;
     "POWERED_ON" := RUNNING ]}.

(** [NODE_STATE_MAP.get(key, NodeState.UNKNOWN)]: a list or a dictionary
    cannot be hashed; any other value that is not a text is no key of the
    table. *)
Definition state_map_get (key : json) : result NodeState.t :=
  match key with
  | JStr s => Ok (default UNKNOWN (NODE_STATE_MAP !! s))
  | JList _ | JDict _ => Raise TypeError
  | JNull | JBool _ | JInt _ | JFloat _ => Ok UNKNOWN
  end.

(** The loop [for key in keys: if key in source: extra[key] = source[key]]. *)
Fixpoint copy_present (keys : list string) (source : json)
    (extra : gmap string json) : result (gmap string json) :=
  match keys with
  | [] => Ok extra
  | key :: rest =>
      present ← contains key source;
      if present : bool then
        v ← getitem source key;
        copy_present rest source (<[key := v]> extra)
      else copy_present rest source extra
  end.

(** Lines 122 to 125 of [_to_node]. *)
Definition node_state (data : json) : result NodeState.t :=
  has_status ← contains "status" data;
  if has_status : bool then
    status ← getitem data "status";
    state ← getitem status "state";
    state_map_get state
  else Ok UNKNOWN.

(** Lines 127 to 130 of [_to_node]. *)
Definition node_public_ips (data : json) : result (list json) :=
  has_ips ← contains "ips" data;
  if has_ips : bool then
    ips ← getitem data "ips";
    Ok (match ips with JNull => [] | _ => [ips] end)
  else Ok [].

Definition _to_node (data : json) : result Node.t :=
  let extra_keys := ["backups_active"; "region_id"; "image_id"; "size_id"] in
  state ← node_state data;
  public_ips ← node_public_ips data;
  extra ← copy_present extra_keys data ∅;
  id ← getitem data "id";
  name ← getitem data "name";
  Ok (Node.Make id name state public_ips None extra).

Definition _to_image (data : json) : result NodeImage.t :=
  os ← getitem data "os";
  os_version ← getitem data "os_version";
  architecture ← getitem data "architecture";
  let extra : gmap string json :=
    {[ "os" := os; "os_version" := os_version; "architecture" := architecture ]} in
  id ← getitem data "id";
  name ← getitem data "name";
  Ok (NodeImage.Make id name extra).

Definition _to_location (data : json) : result NodeLocation.t :=
  id ← getitem data "id";
  name ← getitem data "location";
  country ← getitem data "country_code";
  Ok (NodeLocation.Make id name country).

Section WithBuiltins.
Context `{PyBuiltins}.

(** The locals [ram] and [hdds_size] are bound only inside the
    [if 'hardware' in data] block; [None] stands for both unbound. *)
Definition size_hardware (data : json)
    : result (option (Z * json) * gmap string json) :=
  let extra_keys := ["vcore"; "cores_per_processor"] in
  has_hardware ← contains "hardware" data;
  if has_hardware : bool then
    hardware ← getitem data "hardware";
    ram_gb ← getitem hardware "ram";
    ram_int ← py_int ram_gb;
    let ram := ram_int * 1024 in
    hdds ← getitem hardware "hdds";
    first ← getindex hdds 0;
    hdds_size ← getitem first "size";
    extra ← copy_present extra_keys hardware ∅;
    Ok (Some (ram, hdds_size), extra)
  else Ok (None, ∅).

Definition _to_size (data : json) : result NodeSize.t :=
  '(bound, extra) ← size_hardware data;
  id ← getitem data "id";
  name ← getitem data "name";
  match bound with
  | Some (ram, hdds_size) => Ok (NodeSize.Make id name ram hdds_size 0 0 extra)
  | None => Raise (UnboundLocalError "ram")
  end.

Definition appliance_id : string := "7B9067380CB74BBDFE7F473DEEA2AF5C".

(** The dictionary [form] of [create_node]. *)
Definition create_node_form (name : json) (size : NodeSize.t) : json :=
  let hardware : gmap string json :=
    {[ "fixed_instance_size_id" := NodeSize.id size ]} in
  JDict {[ "name" := name;
           "description" := JStr "test";
           "hardware" := JDict hardware;
           "appliance_id" := JStr appliance_id ]}.

(** The request [create_node] issues. *)
Definition create_node_request (name : json) (size : NodeSize.t)
    (image : NodeImage.t) (location : option NodeLocation.t) : HttpRequest :=
  {| action := "/v1/servers";
     data := Some (json_dumps (create_node_form name size));
     method := "POST" |}.

Definition create_node (connection : Connection) (name : json)
    (size : NodeSize.t) (image : NodeImage.t)
    (location : option NodeLocation.t) : result Node.t :=
  object ← request connection (create_node_request name size image location);
  status ← dict_get object "status" (JStr "OK");
  if eq_text status "ERROR" then
    message ← dict_get object "message" JNull;
    error_message ← dict_get object "error_message" message;
    Raise (ValueError ("Failed to create node: " ++ py_str error_message))
  else _to_node object.
(** Modelled from the spec: the defaults of [Connection.request]
    (libcloud.common.base), a GET without a body. *)
Definition get_request (path : string) : HttpRequest :=
  {| action := path; data := None; method := "GET" |}.

(** [self.connection.request(path).parse_body()]: the body [request] has
    decoded already, decoded again. *)
Definition list_nodes (connection : Connection) : result (list Node.t) :=
  data ← request connection (get_request "/v1/servers");
  list_map _to_node data.

Definition list_locations (connection : Connection) : result (list NodeLocation.t) :=
  data ← request connection (get_request "/v1/datacenters");
  list_map _to_location data.

Definition list_images (connection : Connection) : result (list NodeImage.t) :=
  data ← request connection (get_request "/v1/server_appliances");
  list_map _to_image data.

Definition list_sizes (connection : Connection) : result (list NodeSize.t) :=
  data ← request connection (get_request "/v1/servers/fixed_instance_sizes");
  list_map _to_size data.
End WithBuiltins.
End OneAndOne_v1_NodeDriver.

(** ** [OneAndOne_v1_Connection] *)

Module OneAndOne_v1_Connection.
Definition host : string := "cloudpanel-api.1and1.com".

(** [add_default_headers(self, headers)] with [key] for [self.key]: the
    dictionary is updated in place and returned, so the result is also the
    caller's dictionary after the call. *)
Definition add_default_headers (key : json) (headers : gmap string json)
    : gmap string json :=
  <["Content-Type" := JStr "application/json"]> (<["X-token" := key]> headers).
End OneAndOne_v1_Connection.

(** ** The classes of the two modules and the creation of their instances *)

(** The four driver classes the two modules declare. *)
Module cls.
Inductive t : Type :=
  | OneAndOneBaseDriver
  | OneAndOne_v1_BaseDriver
  | OneAndOneNodeDriver
  | OneAndOne_v1_NodeDriver.

#[global] Instance eq_dec : EqDecision t.
Proof. solve_decision. Defined.

(** The bases the [class] statements name, among these four; the imported
    [BaseDriver] and [NodeDriver] come after all of them in every
    linearization and are left out. *)
Definition bases (c : t) : list t :=
  match c with
  | OneAndOneBaseDriver => []
  | OneAndOne_v1_BaseDriver => [OneAndOneBaseDriver]
  | OneAndOneNodeDriver => []
  | OneAndOne_v1_NodeDriver => [OneAndOne_v1_BaseDriver; OneAndOneNodeDriver]
  end.

(** The classes whose body defines [__new__]. *)
Definition defines_new (c : t) : bool :=
  match c with
  | OneAndOneBaseDriver | OneAndOneNodeDriver => true
  | OneAndOne_v1_BaseDriver | OneAndOne_v1_NodeDriver => false
  end.

(** The method resolution order: the C3 merge of the linearizations of the
    bases and the list of bases. *)
Definition in_tail (c : t) (seq : list t) : bool :=
  match seq with
  | [] => false
  | _ :: rest => bool_decide (c ∈ rest)
  end.

Definition drop_head (c : t) (seq : list t) : list t :=
  match seq with
  | h :: rest => if decide (h = c) then rest else seq
  | [] => []
  end.

Fixpoint merge (fuel : nat) (seqs : list (list t)) : option (list t) :=
  match fuel with
  | O => None
  | S fuel =>
      let live := filter (fun seq => seq ≠ []) seqs in
      match live with
      | [] => Some []
      | _ =>
          let heads := omap head live in
          match list_find (fun c => forallb (fun seq => negb (in_tail c seq)) live = true)
                  heads with
          | Some (_, c) => (c ::.) <$> merge fuel (drop_head c <$> live)
          | None => None
          end
      end
  end.

Fixpoint linearize (fuel : nat) (c : t) : option (list t) :=
  match fuel with
  | O => None
  | S fuel =>
      parents ← mapM (linearize fuel) (bases c);
      rest ← merge 8 (parents ++ [bases c])%list;
      Some (c :: rest)
  end.

Definition mro (c : t) : list t := default [] (linearize 4 c).

(** The class whose [__new__] the call [c(...)] enters, if one of the four
    defines it. *)
Definition new_of (c : t) : option t := snd <$> list_find (fun k => defines_new k = true) (mro c).

(** The classes that follow [c] in a resolution order. *)
Fixpoint past (c : t) (order : list t) : list t :=
  match order with
  | [] => []
  | k :: rest => if decide (k = c) then rest else past c rest
  end.

(** [super(after, c).__new__(c, **kwargs)] for a call without further
    keyword arguments: the next [__new__] in the order of [c] past [after].
    Past the four classes it is [object.__new__], which creates an instance
    of [c]; a [__new__] of these modules would be entered without its
    required [key]. *)
Definition super_new (after c : t) : result t :=
  let later := past after (mro c) in
  match list_find (fun k => defines_new k = true) later with
  | Some _ => Raise TypeError
  | None => Ok c
  end.
End cls.

(** [OneAndOneBaseDriver.__new__(cls, key, secret, api_version)]: the class
    of the instance it creates. The [else] branch calls [NotImplemented],
    which is no exception class and cannot be called. *)
Module OneAndOneBaseDriver.
Definition __new__ (c : cls.t) (key secret : option string)
    (api_version : string) : result cls.t :=
  if decide (c = cls.OneAndOneBaseDriver) then
    cls.super_new cls.OneAndOneBaseDriver cls.OneAndOne_v1_BaseDriver
  else
    Raise TypeError.
End OneAndOneBaseDriver.

(** [OneAndOneNodeDriver.__new__] over the four classes. *)
Module OneAndOneNodeDriver.
Definition __new__ (c : cls.t) (key secret : option string)
    (api_version : string) : result cls.t :=
  if decide (c = cls.OneAndOneNodeDriver) then
    match key with
    | None => Raise (InvalidCredsError (JStr "key missing for v1 authentication"))
    | Some _ => cls.super_new cls.OneAndOneNodeDriver cls.OneAndOne_v1_NodeDriver
    end
  else
    Raise (NotImplementedError ("Unsupported API version: " ++ api_version)).
End OneAndOneNodeDriver.

(** The creation step of the call [c(key, secret, api_version)]: the
    [__new__] found first in the resolution order of [c] is entered with
    [c]; the result is the class of the object created, before its
    [__init__] runs. *)
Definition create_instance (c : cls.t) (key secret : option string)
    (api_version : string) : result cls.t :=
  match cls.new_of c with
  | Some cls.OneAndOneBaseDriver => OneAndOneBaseDriver.__new__ c key secret api_version
  | Some cls.OneAndOneNodeDriver => OneAndOneNodeDriver.__new__ c key secret api_version
  | _ => Ok c
  end.

(** The classes of [driver_class] among the four. *)
Definition class_of (c : driver_class) : cls.t :=
  match c with
  | OneAndOneNodeDriver => cls.OneAndOneNodeDriver
  | OneAndOne_v1_NodeDriver => cls.OneAndOne_v1_NodeDriver
  end.

(** ** A concrete choice of the builtins

    Used to run the definitions on examples: decimal literals for [int()],
    and one compact rendering (keys in map order) for [str()] of containers
    and for [json.dumps]. *)

Definition double_quote : ascii := "034"%char.

Definition quoted (s : string) : string :=
  String double_quote (s ++ String double_quote EmptyString).

Fixpoint render (v : json) : string :=
  match v with
  | JNull => "null"
  | JBool true => "true"
  | JBool false => "false"
  | JInt z => str_of_int z
  | JFloat (S754_zero s) => if s then "-0.0" else "0.0"
  | JFloat (S754_infinity s) => if s then "-Infinity" else "Infinity"
  | JFloat S754_nan => "NaN"
  | JFloat (S754_finite s m e) =>
      (if s then "-" else "") ++ str_of_int (Z.pos m) ++ "p" ++ str_of_int e
  | JStr s => quoted s
  | JList l => "[" ++ String.concat ", " (map render l) ++ "]"
  | JDict d =>
      "{" ++ String.concat ", "
               (map_fold (fun k x acc => (quoted k ++ ": " ++ render x) :: acc) [] d)
          ++ "}"
  end.

Definition digit_value (c : ascii) : option Z :=
  let n := Z.of_nat (nat_of_ascii c) in
  if (48 <=? n) && (n <=? 57) then Some (n - 48) else None.

(** Decimal digits, where a single underscore may stand between two
    digits; [after_digit] tells whether the previous character was one. *)
Fixpoint digits_value (s : string) (after_digit : bool) (acc : Z) : option Z :=
  match s with
  | EmptyString => if after_digit then Some acc else None
  | String c rest =>
      if Ascii.eqb c "_" then
        if after_digit then digits_value rest false acc else None
      else
        match digit_value c with
        | Some d => digits_value rest true (10 * acc + d)
        | None => None
        end
  end.

(** The blanks [int()] strips from both ends of a text. *)
Definition is_blank (c : ascii) : bool :=
  let n := Z.of_nat (nat_of_ascii c) in
  ((9 <=? n) && (n <=? 13)) || ((28 <=? n) && (n <=? 32)).

Fixpoint drop_blanks (chars : list ascii) : list ascii :=
  match chars with
  | c :: rest => if is_blank c then drop_blanks rest else chars
  | [] => []
  end.

Definition strip (s : string) : string :=
  string_of_list_ascii
    (rev (drop_blanks (rev (drop_blanks (list_ascii_of_string s))))).

Definition hex_digit (n : N) : ascii :=
  ascii_of_N (if (n <? 10)%N then 48 + n else 87 + n).

(** One character inside the quotes of [repr()] of a text. *)
Definition repr_char (quote c : ascii) : string :=
  let n := N_of_ascii c in
  if Ascii.eqb c "\" then "\\"
  else if Ascii.eqb c quote then String "\" (String c EmptyString)
  else if (n =? 10)%N then "\n"
  else if (n =? 13)%N then "\r"
  else if (n =? 9)%N then "\t"
  else if ((n <? 32) || (n =? 127))%N then
    String "\" (String "x" (String (hex_digit (n / 16)) (String (hex_digit (n mod 16)) EmptyString)))
  else String c EmptyString.

(** [repr()] of a text of ASCII characters: single quotes, unless the text
    has a single quote and no double quote. *)
Definition repr_text (s : string) : string :=
  let chars := list_ascii_of_string s in
  let has (c : ascii) := existsb (Ascii.eqb c) chars in
  let quote := if has "'"%char && negb (has double_quote) then double_quote else "'"%char in
  String quote (String.concat "" (repr_char quote <$> chars) ++ String quote EmptyString).

(** [int()] of a text as CPython 3 reads it in base 10: blanks stripped, an
    optional sign, decimal digits with single underscores between them. *)
Definition decimal_int (s : string) : result Z :=
  let invalid :=
    Raise (ValueError ("invalid literal for int() with base 10: " ++ repr_text s)) in
  match strip s with
  | String "-" digits => from_option (fun n => Ok (- n)) invalid (digits_value digits false 0)
  | String "+" digits => from_option Ok invalid (digits_value digits false 0)
  | digits => from_option Ok invalid (digits_value digits false 0)
  end.

Definition sample_builtins : PyBuiltins :=
  {| builtin_repr := render;
     builtin_int_text := decimal_int;
     json_dumps := render |}.

(** ** Sample payloads, entities and servers *)

Definition powered_on_payload : gmap string json :=
  {[ "id" := JStr "1"; "name" := JStr "n";
     "status" := JDict {[ "state" := JStr "POWERED_ON" ]};
     "ips" := JStr "1.2.3.4" ]}.

Definition payload_without_status : gmap string json :=
  {[ "id" := JStr "1"; "name" := JStr "n" ]}.

Definition payload_without_state : gmap string json :=
  {[ "id" := JStr "1"; "name" := JStr "n";
     "status" := JDict {[ "percent" := JInt 50 ]} ]}.

Definition size_hardware_block (hdds : list json) : gmap string json :=
  {[ "ram" := JStr "2"; "hdds" := JList hdds ]}.

Definition size_payload (hdds : list json) : gmap string json :=
  {[ "id" := JStr "s1"; "name" := JStr "S";
     "hardware" := JDict (size_hardware_block hdds) ]}.

Definition size_payload_without_hardware : gmap string json :=
  {[ "id" := JStr "s1"; "name" := JStr "S" ]}.

Definition london_payload : gmap string json :=
  {[ "id" := JStr "L1"; "location" := JStr "Lon"; "country_code" := JStr "GB" ]}.

Definition sample_size (ram : Z) : NodeSize.t :=
  NodeSize.Make (JStr "s1") (JStr "S") ram (JInt 40) 0 0 ∅.

Definition sample_image (name : string) : NodeImage.t :=
  NodeImage.Make (JStr "i1") (JStr name) ∅.

Definition london : NodeLocation.t :=
  NodeLocation.Make (JStr "L1") (JStr "Lon") (JStr "GB").

(** A server that answers every request with the same status and body. *)
Definition constant_server (code : Z) (body : gmap string json) : Connection :=
  fun _ => {| status := code; parse_body := Ok (JDict body) |}.

Definition quota_body : gmap string json :=
  {[ "status" := JStr "ERROR"; "error_message" := JStr "quota exceeded" ]}.

Definition lowercase_error_body : gmap string json :=
  {[ "id" := JStr "1"; "name" := JStr "n"; "status" := JStr "error" ]}.

(** More sample inputs. *)

Definition caller_headers : gmap string json :=
  {[ "Accept" := JStr "*/*"; "X-token" := JStr "stale" ]}.

Definition image_payload : gmap string json :=
  {[ "id" := JStr "i1"; "name" := JStr "ubuntu"; "os" := JStr "Linux";
     "os_version" := JStr "Ubuntu 14.04"; "architecture" := JInt 64 ]}.

Definition full_node_payload : gmap string json :=
  {[ "id" := JStr "1"; "name" := JStr "n";
     "status" := JDict {[ "state" := JStr "DEPLOYING"; "percent" := JInt 20 ]};
     "ips" := JNull; "image_id" := JStr "i1"; "datacenter" := JStr "L1" ]}.

Definition rich_size_payload : gmap string json :=
  {[ "id" := JStr "s1"; "name" := JStr "S"; "vcore" := JInt 99;
     "hardware" := JDict {[ "ram" := JInt 2; "vcore" := JInt 4;
                            "hdds" := JList [JDict {[ "size" := JInt 40 ]}] ]} ]}.

(** A server that answers every request with the same decoded body. *)
Definition json_server (code : Z) (body : json) : Connection :=
  fun _ => {| status := code; parse_body := Ok body |}.

(** ** Auxiliary predicates *)

(** The values a dictionary accepts as a key: lists and dictionaries cannot
    be hashed. *)
Definition hashable (v : json) : bool :=
  match v with
  | JList _ | JDict _ => false
  | _ => true
  end.

Definition is_object (v : json) : bool :=
  match v with
  | JDict _ => true
  | _ => false
  end.

Definition bad_ram_payload : gmap string json :=
  {[ "id" := JStr "s1"; "name" := JStr "S";
     "hardware" := JDict {[ "ram" := JStr "two"; "hdds" := JList [] ]} ]}.

Definition powered_on_node : Node.t :=
  Node.Make (JStr "1") (JStr "n") NodeState.RUNNING [JStr "1.2.3.4"] None ∅.

Definition deploying_node : Node.t :=
  Node.Make (JStr "1") (JStr "n") NodeState.PENDING [] None
    {[ "image_id" := JStr "i1" ]}.

Definition rich_size : NodeSize.t :=
  NodeSize.Make (JStr "s1") (JStr "S") 2048 (JInt 40) 0 0 {[ "vcore" := JInt 4 ]}.

Definition unauthorized_without_message : Response :=
  {| status := 401; parse_body := Ok (JDict {[ "error" := JStr "denied" ]}) |}.

Definition failed_with_message : Response :=
  {| status := 500; parse_body := Ok (JDict {[ "message" := JStr "boom" ]}) |}.

(** Samples for the size and creation properties. *)

(** A size payload whose RAM figure is the float [m * 2 ^ e]. *)
Definition float_ram_payload (m : positive) (e : Z) : gmap string json :=
  {[ "id" := JStr "s1"; "name" := JStr "S";
     "hardware" := JDict {[ "ram" := JFloat (S754_finite false m e);
                            "hdds" := JList [JDict {[ "size" := JInt 40 ]}] ]} ]}.

Definition null_body_failure : Response :=
  {| status := 500; parse_body := Ok JNull |}.

Definition empty_body_failure : Response :=
  {| status := 500; parse_body := Ok (JStr "") |}.

Definition request_eqb (a b : HttpRequest) : bool :=
  String.eqb (action a) (action b)
  && String.eqb (method a) (method b)
  && match data a, data b with
     | Some x, Some y => String.eqb x y
     | None, None => true
     | _, _ => false
     end.

(** A server that answers one request with the given status and body and
    every other request with status 500. *)
Definition only_server (expected : HttpRequest) (code : Z)
    (body : gmap string json) : Connection :=
  fun req =>
    if request_eqb req expected
    then {| status := code; parse_body := Ok (JDict body) |}
    else {| status := 500; parse_body := Ok (JDict ∅) |}.

(** The creation request for the name "web" and the size "s1", written
    out. *)
Definition web_create_request : HttpRequest :=
  {| action := "/v1/servers";
     data := Some (render (JDict {[ "name" := JStr "web";
                                   "description" := JStr "test";
                                   "hardware" :=
                                     JDict {[ "fixed_instance_size_id" := JStr "s1" ]};
                                   "appliance_id" :=
                                     JStr "7B9067380CB74BBDFE7F473DEEA2AF5C" ]}));
     method := "POST" |}.

(** The first of the listed keys an object lacks, if any. *)
Fixpoint first_missing (keys : list string) (d : gmap string json) : option string :=
  match keys with
  | [] => None
  | key :: rest =>
      match d !! key with
      | None => Some key
      | Some _ => first_missing rest d
      end
  end.

(** ** Statements of the specification to compare the code with *)

(** The lifecycle lookup as the specification words it: three named vendor
    states, anything else unknown. *)
Definition spec_state_lookup (s : string) : NodeState.t :=
  if String.eqb s "DEPLOYING" then NodeState.PENDING
  else if String.eqb s "POWERED_OFF" then NodeState.REBOOTING
  else if String.eqb s "POWERED_ON" then NodeState.RUNNING
  else NodeState.UNKNOWN.

(** The float [m * 2 ^ e], negated when [negative], truncated towards zero:
    what [int()] of a float is said to be. *)
Definition float_truncation (negative : bool) (m : positive) (e : Z) : Z :=
  Z.quot ((if negative then - Z.pos m else Z.pos m) * 2 ^ Z.max e 0)
         (2 ^ Z.max (- e) 0).

(** The renaming of the location mapping read backwards: the payload fields
    a location stands for. *)
Definition location_payload (loc : NodeLocation.t) : gmap string json :=
  {[ "id" := NodeLocation.id loc;
     "location" := NodeLocation.name loc;
     "country_code" := NodeLocation.country loc ]}.

(** The errors a mapping function meets while reading a payload: a failed
    lookup or a value of the wrong shape. *)
Definition lookup_error (e : exn) : Prop :=
  e = TypeError \/ exists key, e = KeyError key.

(** * Properties *)

(** ** Lookups in a decoded object *)

Lemma bind_ok {A B} (a : A) (k : A -> result B) : (Ok a ≫= k) = k a.
Proof. reflexivity. Qed.

Lemma bind_raise {A B} (e : exn) (k : A -> result B) : (Raise e ≫= k) = Raise e.
Proof. reflexivity. Qed.

Lemma getitem_present (d : gmap string json) key v :
  d !! key = Some v -> getitem (JDict d) key = Ok v.
Proof. intros Hk. unfold getitem. now rewrite Hk. Qed.

Lemma getitem_absent (d : gmap string json) key :
  d !! key = None -> getitem (JDict d) key = Raise (KeyError (JStr key)).
Proof. intros Hk. unfold getitem. now rewrite Hk. Qed.

Lemma contains_present (d : gmap string json) key v :
  d !! key = Some v -> contains key (JDict d) = Ok true.
Proof.
  intros Hk. unfold contains. f_equal. apply bool_decide_eq_true. now exists v.
Qed.

Lemma contains_absent (d : gmap string json) key :
  d !! key = None -> contains key (JDict d) = Ok false.
Proof.
  intros Hk. unfold contains. f_equal. apply bool_decide_eq_false.
  rewrite Hk. intros [v Hv]. discriminate.
Qed.

Lemma dict_get_object (d : gmap string json) key fallback :
  dict_get (JDict d) key fallback = Ok (default fallback (d !! key)).
Proof. reflexivity. Qed.

Create Rewrite HintDb pyeval.
#[local] Hint Rewrite @bind_ok @bind_raise dict_get_object : pyeval.

(** Evaluate a body on an object whose lookups are known from hypotheses. *)
Ltac lookup_step :=
  match goal with
  | H : ?d !! ?k = Some _ |- context [getitem (JDict ?d) ?k] =>
      rewrite (getitem_present d k _ H)
  | H : ?d !! ?k = None |- context [getitem (JDict ?d) ?k] =>
      rewrite (getitem_absent d k H)
  | H : ?d !! ?k = Some _ |- context [contains ?k (JDict ?d)] =>
      rewrite (contains_present d k _ H)
  | H : ?d !! ?k = None |- context [contains ?k (JDict ?d)] =>
      rewrite (contains_absent d k H)
  end.

Ltac split_guard :=
  match goal with
  | |- context [if ?guard then _ else _] => destruct guard
  end.

Ltac py_eval := repeat (first [lookup_step | progress autorewrite with pyeval]).

(** ** The driver facade *)

(** C1, as the code has it: [__new__] never consults [api_version] when it
    is entered through the facade. Whatever version is requested, and
    whatever the secret, construction with a key resolves to the Version-1
    driver; the "Unsupported API version" error is raised only when [cls] is
    not the facade class. *)
Theorem facade_ignores_api_version (key : string) (secret : option string)
    (api_version : string) :
  construct_facade (Some key) secret api_version = Ok OneAndOne_v1_NodeDriver.
Proof. reflexivity. Qed.

Example facade_v3 :
  construct_facade (Some "k") None "v3" = Ok OneAndOne_v1_NodeDriver.
Proof. reflexivity. Qed.

Example facade_without_key (api_version : string) :
  construct_facade None None api_version
  = Raise (InvalidCredsError (JStr "key missing for v1 authentication")).
Proof. reflexivity. Qed.

Example new_on_subclass (key : option string) :
  __new__ OneAndOne_v1_NodeDriver key None "v2"
  = Raise (NotImplementedError "Unsupported API version: v2").
Proof. reflexivity. Qed.

(** ** The response decoder *)

Import OneAndOne_v1_Response.

(** C2: [success()] is true exactly for the status codes 200, 201, 202 and
    204, and false for every other status code. *)
Theorem success_iff_valid_code (r : Response) :
  (success r = true <->
     status r = 200 \/ status r = 201 \/ status r = 202 \/ status r = 204)
  /\ (success r = false <->
        status r <> 200 /\ status r <> 201 /\ status r <> 202 /\ status r <> 204).
Proof.
  unfold success, valid_response_codes, httplib.OK, httplib.ACCEPTED,
    httplib.CREATED, httplib.NO_CONTENT. cbn [existsb].
  destruct (Z.eqb_spec (status r) 200), (Z.eqb_spec (status r) 202),
    (Z.eqb_spec (status r) 201), (Z.eqb_spec (status r) 204); cbn; split; split;
    intros; try lia; try discriminate; try reflexivity.
Qed.

Example success_204 body : success {| status := 204; parse_body := body |} = true.
Proof. reflexivity. Qed.

Example success_404 body : success {| status := 404; parse_body := body |} = false.
Proof. reflexivity. Qed.

Section Decoder.
Context `{PyBuiltins}.

Lemma not_among_texts (key : string) (items : list json) :
  Forall (fun item => item <> JStr key) items -> existsb (is_text key) items = false.
Proof.
  induction 1 as [| item items Hitem _ IH]; [reflexivity |].
  cbn [existsb]. rewrite IH, orb_false_r. destruct item; try reflexivity.
  cbn [is_text]. destruct (String.eqb_spec s key) as [-> | Hne]; [| reflexivity].
  now destruct Hitem.
Qed.

(** C3, amended: on a response whose body decodes, [parse_error()]
    - raises [InvalidCredsError] carrying the [message] field when the
      status is 401 and the body is an object with that field;
    - returns the text "<message> (code: <status>)" when the status is not
      401 and the body is an object with a [message] field, the message of
      a text being the text itself;
    - returns the decoded body itself when the status is not 401 and
      ['message' in body] is false: an object without the field, a list
      without that element, a text without that substring, the empty
      text. *)
Theorem parse_error_cases (r : Response) (body : json) :
  parse_body r = Ok body ->
  (forall (d : gmap string json) m,
      status r = 401 -> body = JDict d -> d !! "message" = Some m ->
      parse_error r = Raise (InvalidCredsError m))
  /\ (forall (d : gmap string json) m,
        status r <> 401 -> body = JDict d -> d !! "message" = Some m ->
        parse_error r
        = Ok (JStr (py_str m ++ " (code: " ++ str_of_int (status r) ++ ")")))
  /\ (forall (d : gmap string json) text,
        status r <> 401 -> body = JDict d -> d !! "message" = Some (JStr text) ->
        parse_error r
        = Ok (JStr (text ++ " (code: " ++ str_of_int (status r) ++ ")")))
  /\ (status r <> 401 -> contains "message" body = Ok false ->
        parse_error r = Ok body)
  /\ (forall d : gmap string json,
        status r <> 401 -> body = JDict d -> d !! "message" = None ->
        parse_error r = Ok (JDict d))
  /\ (forall items,
        status r <> 401 -> body = JList items ->
        Forall (fun item => item <> JStr "message") items ->
        parse_error r = Ok (JList items))
  /\ (status r <> 401 -> body = JStr "" -> parse_error r = Ok (JStr "")).
Proof.
  intros Hbody.
  assert (status r <> 401 -> contains "message" body = Ok false ->
          parse_error r = Ok body) as Habsent.
  { intros Hst Hin. apply Z.eqb_neq in Hst.
    unfold parse_error, httplib.UNAUTHORIZED. rewrite Hst, Hbody.
    rewrite bind_ok, Hin. reflexivity. }
  assert (forall (d : gmap string json) m,
             status r <> 401 -> body = JDict d -> d !! "message" = Some m ->
             parse_error r
             = Ok (JStr (py_str m ++ " (code: " ++ str_of_int (status r) ++ ")")))
    as Hpresent.
  { intros d m Hst -> Hm. apply Z.eqb_neq in Hst.
    unfold parse_error, httplib.UNAUTHORIZED. rewrite Hst, Hbody. now py_eval. }
  split; [| split; [| split; [| split; [| split; [| split]]]]].
  - intros d m Hst -> Hm. unfold parse_error, httplib.UNAUTHORIZED.
    rewrite Hst, Hbody. cbn [Z.eqb Pos.eqb]. now py_eval.
  - exact Hpresent.
  - intros d text Hst Hd Hm. now rewrite (Hpresent d (JStr text) Hst Hd Hm).
  - exact Habsent.
  - intros d Hst -> Hm. apply Habsent; [exact Hst |]. now apply contains_absent.
  - intros items Hst -> Hitems. apply Habsent; [exact Hst |].
    cbn [contains]. now rewrite not_among_texts.
  - intros Hst ->. now apply Habsent.
Qed.

(** A body that failed to decode is the error of [parse_error] too. *)
Lemma parse_error_undecoded (r : Response) (e : exn) :
  parse_body r = Raise e -> parse_error r = Raise e.
Proof.
  intros Hbody. unfold parse_error. rewrite Hbody. now destruct (_ =? _).
Qed.

(** A decoded body that is no object: [null] supports neither [in] nor
    subscripting. *)
Lemma parse_error_null_body (r : Response) :
  parse_body r = Ok JNull -> status r <> 401 -> parse_error r = Raise TypeError.
Proof.
  intros Hbody Hst. apply Z.eqb_neq in Hst. unfold parse_error, httplib.UNAUTHORIZED.
  now rewrite Hbody, Hst.
Qed.

End Decoder.

(** ** Entity mapping *)

Import OneAndOne_v1_NodeDriver.

Lemma state_map_get_text (s : string) :
  state_map_get (JStr s) = Ok (spec_state_lookup s).
Proof.
  unfold state_map_get, spec_state_lookup, NODE_STATE_MAP. f_equal.
  destruct (String.eqb_spec s "DEPLOYING") as [-> | Hdeploying]; [reflexivity |].
  rewrite lookup_insert_ne by congruence.
  destruct (String.eqb_spec s "POWERED_OFF") as [-> | Hoff]; [reflexivity |].
  rewrite lookup_insert_ne by congruence.
  destruct (String.eqb_spec s "POWERED_ON") as [-> | Hon]; [reflexivity |].
  now rewrite lookup_singleton_ne by congruence.
Qed.

Lemma copy_present_object (keys : list string) (d extra : gmap string json) :
  exists copied, copy_present keys (JDict d) extra = Ok copied.
Proof.
  revert extra. induction keys as [| key rest IH]; intros extra; cbn [copy_present].
  - now exists extra.
  - destruct (d !! key) as [v |] eqn:Hkey; py_eval; apply IH.
Qed.

Lemma node_public_ips_object (d : gmap string json) :
  exists ips, node_public_ips (JDict d) = Ok ips.
Proof.
  unfold node_public_ips.
  destruct (d !! "ips") as [v |] eqn:Hips; py_eval; eauto.
Qed.

(** Once the state is computed, an object with [id] and [name] maps to a
    node carrying that state. *)
Lemma to_node_object (d : gmap string json) (i n : json) (st : NodeState.t) :
  d !! "id" = Some i -> d !! "name" = Some n ->
  node_state (JDict d) = Ok st ->
  exists node, _to_node (JDict d) = Ok node
    /\ Node.id node = i /\ Node.name node = n /\ Node.state node = st.
Proof.
  intros Hid Hname Hstate. unfold _to_node. rewrite Hstate.
  destruct (node_public_ips_object d) as [ips ->].
  destruct (copy_present_object
              ["backups_active"; "region_id"; "image_id"; "size_id"] d ∅)
    as [extra ->].
  py_eval. eexists. split; [reflexivity |]. now cbn.
Qed.

(** C4: the node mapping computes the lifecycle state by the fixed lookup
    DEPLOYING to pending, POWERED_OFF to rebooting, POWERED_ON to running,
    any other [status.state] text to unknown; a payload with no [status]
    key maps to unknown. *)
Theorem to_node_state_lookup (d : gmap string json) (i n : json) :
  d !! "id" = Some i -> d !! "name" = Some n ->
  (d !! "status" = None ->
     exists node, _to_node (JDict d) = Ok node
       /\ Node.id node = i /\ Node.name node = n
       /\ Node.state node = NodeState.UNKNOWN)
  /\ (forall (status : gmap string json) (s : string),
        d !! "status" = Some (JDict status) ->
        status !! "state" = Some (JStr s) ->
        exists node, _to_node (JDict d) = Ok node
          /\ Node.id node = i /\ Node.name node = n
          /\ Node.state node = spec_state_lookup s
          /\ (s = "DEPLOYING" -> Node.state node = NodeState.PENDING)
          /\ (s = "POWERED_OFF" -> Node.state node = NodeState.REBOOTING)
          /\ (s = "POWERED_ON" -> Node.state node = NodeState.RUNNING)
          /\ (s <> "DEPLOYING" -> s <> "POWERED_OFF" -> s <> "POWERED_ON" ->
                Node.state node = NodeState.UNKNOWN)).
Proof.
  intros Hid Hname. split.
  - intros Hstatus. apply to_node_object; try assumption.
    unfold node_state. now py_eval.
  - intros status s Hstatus Hstate.
    destruct (to_node_object d i n (spec_state_lookup s) Hid Hname)
      as (node & Hnode & Hi & Hn & Hs).
    { unfold node_state. py_eval. apply state_map_get_text. }
    exists node. rewrite Hs. repeat split; try assumption.
    + now intros ->.
    + now intros ->.
    + now intros ->.
    + intros H1 H2 H3. unfold spec_state_lookup.
      apply String.eqb_neq in H1, H2, H3. now rewrite H1, H2, H3.
Qed.

(** C9: a [status] object without a [state] key makes the node mapping fail
    on the missing key; the state is not defaulted to unknown. *)
Theorem to_node_status_without_state (d status : gmap string json) :
  d !! "status" = Some (JDict status) ->
  status !! "state" = None ->
  _to_node (JDict d) = Raise (KeyError (JStr "state"))
  /\ forall node, _to_node (JDict d) <> Ok node.
Proof.
  intros Hstatus Hstate.
  assert (_to_node (JDict d) = Raise (KeyError (JStr "state"))) as ->.
  { unfold _to_node, node_state. now py_eval. }
  split; [reflexivity | discriminate].
Qed.

(** A [status] value that is no object cannot be subscripted by ['state']. *)
Lemma to_node_status_not_object (d : gmap string json) (status : json) :
  d !! "status" = Some status ->
  (forall fields, status <> JDict fields) ->
  _to_node (JDict d) = Raise TypeError.
Proof.
  intros Hstatus Hshape. unfold _to_node, node_state. py_eval.
  destruct status; try reflexivity. now destruct (Hshape d0).
Qed.

(** C7: the location mapping renames [location] to [name] and
    [country_code] to [country] and keeps [id]; the three payload fields are
    recovered from the entity by the inverse renaming, and mapping that
    payload gives the entity back. *)
Theorem to_location_lossless (d : gmap string json) (i l c : json) :
  d !! "id" = Some i -> d !! "location" = Some l -> d !! "country_code" = Some c ->
  exists loc, _to_location (JDict d) = Ok loc
    /\ NodeLocation.id loc = i
    /\ NodeLocation.name loc = l
    /\ NodeLocation.country loc = c
    /\ location_payload loc ⊆ d
    /\ _to_location (JDict (location_payload loc)) = Ok loc.
Proof.
  intros Hid Hloc Hcc. exists (NodeLocation.Make i l c).
  split; [| split; [| split; [| split; [| split]]]]; try reflexivity.
  - unfold _to_location. now py_eval.
  - unfold location_payload. cbn. apply map_subseteq_spec. intros k v Hk.
    apply lookup_insert_Some in Hk as [[<- <-] | [Hne1 Hk]]; [assumption |].
    apply lookup_insert_Some in Hk as [[<- <-] | [Hne2 Hk]]; [assumption |].
    apply lookup_singleton_Some in Hk as [<- <-]. assumption.
Qed.

(** ** Errors of the node mapping *)

Lemma bind_raise_inv {A B} (m : result A) (k : A -> result B) (e : exn) :
  (m ≫= k) = Raise e -> m = Raise e \/ exists a, m = Ok a /\ k a = Raise e.
Proof.
  destruct m as [a | e']; intros Hm.
  - right. exists a. split; [reflexivity | exact Hm].
  - left. now injection Hm as ->.
Qed.

Lemma getitem_error data key e : getitem data key = Raise e -> lookup_error e.
Proof.
  unfold getitem, lookup_error. destruct data; try (intros [= <-]; now left).
  destruct (d !! key); intros [= <-]. right. eauto.
Qed.

Lemma contains_error data key e : contains key data = Raise e -> lookup_error e.
Proof.
  unfold contains, lookup_error. destruct data; intros [= <-]; now left.
Qed.

Lemma state_map_get_error key e : state_map_get key = Raise e -> lookup_error e.
Proof.
  unfold state_map_get, lookup_error. destruct key; intros [= <-]; now left.
Qed.

Lemma copy_present_error keys source extra e :
  copy_present keys source extra = Raise e -> lookup_error e.
Proof.
  revert extra. induction keys as [| key rest IH]; intros extra; cbn [copy_present].
  - discriminate.
  - intros Hm. apply bind_raise_inv in Hm as [Hm | ([] & _ & Hm)].
    + eapply contains_error, Hm.
    + apply bind_raise_inv in Hm as [Hm | (v & _ & Hm)].
      * eapply getitem_error, Hm.
      * eapply IH, Hm.
    + eapply IH, Hm.
Qed.

Lemma node_state_error data e : node_state data = Raise e -> lookup_error e.
Proof.
  unfold node_state. intros Hm.
  apply bind_raise_inv in Hm as [Hm | ([] & _ & Hm)];
    [eapply contains_error, Hm | | discriminate].
  apply bind_raise_inv in Hm as [Hm | (status & _ & Hm)];
    [eapply getitem_error, Hm |].
  apply bind_raise_inv in Hm as [Hm | (state & _ & Hm)];
    [eapply getitem_error, Hm | eapply state_map_get_error, Hm].
Qed.

Lemma node_public_ips_error data e :
  node_public_ips data = Raise e -> lookup_error e.
Proof.
  unfold node_public_ips. intros Hm.
  apply bind_raise_inv in Hm as [Hm | ([] & _ & Hm)];
    [eapply contains_error, Hm | | discriminate].
  apply bind_raise_inv in Hm as [Hm | (ips & _ & Hm)];
    [eapply getitem_error, Hm | discriminate].
Qed.

(** The node mapping raises nothing but lookup errors; in particular never
    the [ValueError] of [create_node]. *)
Lemma to_node_error data e : _to_node data = Raise e -> lookup_error e.
Proof.
  unfold _to_node. intros Hm.
  apply bind_raise_inv in Hm as [Hm | (state & _ & Hm)];
    [eapply node_state_error, Hm |].
  apply bind_raise_inv in Hm as [Hm | (ips & _ & Hm)];
    [eapply node_public_ips_error, Hm |].
  apply bind_raise_inv in Hm as [Hm | (extra & _ & Hm)];
    [eapply copy_present_error, Hm |].
  apply bind_raise_inv in Hm as [Hm | (i & _ & Hm)];
    [eapply getitem_error, Hm |].
  apply bind_raise_inv in Hm as [Hm | (n & _ & Hm)];
    [eapply getitem_error, Hm | discriminate].
Qed.

Lemma getindex_first (x : json) (rest : list json) :
  getindex (JList (x :: rest)) 0 = Ok x.
Proof. reflexivity. Qed.

Lemma getindex_empty : getindex (JList []) 0 = Raise IndexError.
Proof. reflexivity. Qed.

Section Driver.
Context `{PyBuiltins}.

(** [int()] of a finite float is its truncation towards zero. *)
Lemma int_of_float_finite (negative : bool) (m : positive) (e : Z) :
  int_of_float (S754_finite negative m e) = Ok (float_truncation negative m e).
Proof.
  unfold int_of_float, float_truncation. f_equal.
  destruct (Z_le_gt_dec 0 e) as [Hup | Hdown].
  - rewrite (Z.max_l e 0), (Z.max_r (- e) 0) by lia.
    rewrite Z.pow_0_r, Z.quot_1_r, Z.shiftl_mul_pow2 by lia.
    destruct negative; ring.
  - rewrite (Z.max_r e 0), (Z.max_l (- e) 0) by lia.
    rewrite Z.pow_0_r, Z.mul_1_r.
    replace (Z.shiftl (Z.pos m) e) with (Z.shiftl (Z.pos m) (- - e))
      by (f_equal; lia).
    rewrite Z.shiftl_opp_r, Z.shiftr_div_pow2 by lia.
    assert (0 < 2 ^ (- e)) as Hpow by (apply Z.pow_pos_nonneg; lia).
    destruct negative.
    + rewrite Z.quot_opp_l by lia. now rewrite Z.quot_div_nonneg by lia.
    + now rewrite Z.quot_div_nonneg by lia.
Qed.

(** The size a well-formed payload maps to, once [int()] accepts the RAM
    figure. *)
Lemma to_size_mapped (d hw first : gmap string json) (i n r sz : json) (g : Z)
    (rest : list json) :
  d !! "id" = Some i -> d !! "name" = Some n ->
  d !! "hardware" = Some (JDict hw) ->
  hw !! "ram" = Some r -> py_int r = Ok g ->
  hw !! "hdds" = Some (JList (JDict first :: rest)) ->
  first !! "size" = Some sz ->
  exists size, _to_size (JDict d) = Ok size
    /\ NodeSize.id size = i /\ NodeSize.name size = n
    /\ NodeSize.ram size = g * 1024
    /\ NodeSize.disk size = sz
    /\ NodeSize.bandwidth size = 0 /\ NodeSize.price size = 0.
Proof.
  intros Hid Hname Hhw Hram Hint Hhdds Hsz.
  unfold _to_size, size_hardware. py_eval. rewrite Hint. py_eval.
  rewrite getindex_first. py_eval.
  destruct (copy_present_object ["vcore"; "cores_per_processor"] hw ∅)
    as [extra ->].
  py_eval. eexists. split; [reflexivity |]. now cbn.
Qed.

(** C5, amended: with a [hardware] block whose [hdds] list starts with a
    disk, the size mapping returns [int()] of the RAM figure times 1024 (an
    integer figure itself, a float figure truncated towards zero, a text
    figure read as an integer literal) and the [size] of the first disk;
    with an empty [hdds] list or without a [hardware] block it raises
    ([IndexError] on the empty list, [UnboundLocalError] on the locals left
    unbound by the skipped block) and yields no size, zero or otherwise. *)
Theorem to_size_hardware (d : gmap string json) :
  (forall (hw first : gmap string json) (i n r sz : json) (rest : list json),
      d !! "id" = Some i -> d !! "name" = Some n ->
      d !! "hardware" = Some (JDict hw) ->
      hw !! "ram" = Some r ->
      hw !! "hdds" = Some (JList (JDict first :: rest)) ->
      first !! "size" = Some sz ->
      (forall g, py_int r = Ok g ->
         exists size, _to_size (JDict d) = Ok size
           /\ NodeSize.id size = i /\ NodeSize.name size = n
           /\ NodeSize.ram size = g * 1024
           /\ NodeSize.disk size = sz
           /\ NodeSize.bandwidth size = 0 /\ NodeSize.price size = 0)
      /\ (forall z, r = JInt z ->
            exists size, _to_size (JDict d) = Ok size
              /\ NodeSize.ram size = z * 1024 /\ NodeSize.disk size = sz)
      /\ (forall negative m e, r = JFloat (S754_finite negative m e) ->
            exists size, _to_size (JDict d) = Ok size
              /\ NodeSize.ram size = float_truncation negative m e * 1024
              /\ NodeSize.disk size = sz)
      /\ (forall text g, r = JStr text -> builtin_int_text text = Ok g ->
            exists size, _to_size (JDict d) = Ok size
              /\ NodeSize.ram size = g * 1024 /\ NodeSize.disk size = sz))
  /\ (forall hw : gmap string json,
        d !! "hardware" = Some (JDict hw) ->
        hw !! "hdds" = Some (JList []) ->
        raises (_to_size (JDict d))
        /\ (forall r g, hw !! "ram" = Some r -> py_int r = Ok g ->
              _to_size (JDict d) = Raise IndexError)
        /\ (forall z, hw !! "ram" = Some (JInt z) ->
              _to_size (JDict d) = Raise IndexError))
  /\ (d !! "hardware" = None ->
        raises (_to_size (JDict d))
        /\ forall i n, d !! "id" = Some i -> d !! "name" = Some n ->
             _to_size (JDict d) = Raise (UnboundLocalError "ram")).
Proof.
  split; [| split].
  - intros hw first i n r sz rest Hid Hname Hhw Hram Hhdds Hsz.
    assert (forall g, py_int r = Ok g ->
              exists size, _to_size (JDict d) = Ok size
                /\ NodeSize.id size = i /\ NodeSize.name size = n
                /\ NodeSize.ram size = g * 1024
                /\ NodeSize.disk size = sz
                /\ NodeSize.bandwidth size = 0 /\ NodeSize.price size = 0)
      as Hmapped.
    { intros g Hint. now apply (to_size_mapped d hw first i n r sz g rest). }
    split; [exact Hmapped | split; [| split]].
    + intros z ->. destruct (Hmapped z eq_refl)
        as (size & Hsize & _ & _ & Hr & Hd & _). now exists size.
    + intros negative m e ->.
      destruct (Hmapped (float_truncation negative m e)
                  (int_of_float_finite negative m e))
        as (size & Hsize & _ & _ & Hr & Hd & _). now exists size.
    + intros text g -> Htext.
      destruct (Hmapped g Htext) as (size & Hsize & _ & _ & Hr & Hd & _).
      now exists size.
  - intros hw Hhw Hhdds.
    assert (forall r g, hw !! "ram" = Some r -> py_int r = Ok g ->
              _to_size (JDict d) = Raise IndexError) as Hindex.
    { intros r g Hram Hint. unfold _to_size, size_hardware. py_eval.
      rewrite Hint. py_eval. now rewrite getindex_empty. }
    split; [| split; [exact Hindex |]].
    + destruct (hw !! "ram") as [r |] eqn:Hram.
      * destruct (py_int r) as [g | e] eqn:Hint.
        -- exists IndexError. now apply (Hindex r g).
        -- exists e. unfold _to_size, size_hardware. py_eval. now rewrite Hint.
      * eexists. unfold _to_size, size_hardware. now py_eval.
    + intros z Hram. now apply (Hindex (JInt z) z).
  - intros Hhw.
    assert (forall i n, d !! "id" = Some i -> d !! "name" = Some n ->
              _to_size (JDict d) = Raise (UnboundLocalError "ram")) as Hunbound.
    { intros i n Hid Hname. unfold _to_size, size_hardware. now py_eval. }
    split; [| exact Hunbound].
    destruct (d !! "id") as [i |] eqn:Hid; [destruct (d !! "name") as [n |] eqn:Hname |].
    + eexists. now apply (Hunbound i n).
    + eexists. unfold _to_size, size_hardware. now py_eval.
    + eexists. unfold _to_size, size_hardware. now py_eval.
Qed.

(** What [create_node] does with the decoded body of a successful response. *)
Lemma create_node_on_success connection name size image location
    (d : gmap string json) :
  let response := connection (create_node_request name size image location) in
  success response = true ->
  parse_body response = Ok (JDict d) ->
  create_node connection name size image location
  = if eq_text (default (JStr "OK") (d !! "status")) "ERROR" then
      Raise (ValueError ("Failed to create node: "
               ++ py_str (default (default JNull (d !! "message"))
                            (d !! "error_message"))))
    else _to_node (JDict d).
Proof.
  intros response Hsuccess Hbody. unfold create_node, request.
  fold response. rewrite Hsuccess, Hbody. py_eval.
  destruct (eq_text _ _); [now py_eval | reflexivity].
Qed.

Lemma eq_text_spec (v : json) (text : string) :
  eq_text v text = true <-> v = JStr text.
Proof.
  unfold eq_text, is_text. destruct v; try (split; [discriminate | congruence]).
  destruct (String.eqb_spec s text) as [-> | Hne]; split;
    congruence || reflexivity.
Qed.

(** An object without [status] but with [id] and [name] maps to a node of
    unknown state. *)
Lemma to_node_without_status (d : gmap string json) (i n : json) :
  d !! "status" = None -> d !! "id" = Some i -> d !! "name" = Some n ->
  exists node, _to_node (JDict d) = Ok node
    /\ Node.id node = i /\ Node.name node = n
    /\ Node.state node = NodeState.UNKNOWN.
Proof.
  intros Hstatus Hid Hname. apply to_node_object; try assumption.
  unfold node_state. now py_eval.
Qed.

(** C6: when the decoded body of an HTTP-successful response has [status]
    equal to "ERROR", [create_node] raises the [ValueError] whose text
    carries [error_message], or [message] when [error_message] is absent: a
    text field follows "Failed to create node: " as it is, any other value
    as [str()] prints it, and with neither field the text ends in "None".
    Otherwise it returns the body mapped by the node mapping. A response
    that fails the HTTP status check is raised by the connection before the
    body's [status] is looked at. *)
Theorem create_node_vendor_error connection name size image location
    (d : gmap string json) :
  let response := connection (create_node_request name size image location) in
  parse_body response = Ok (JDict d) ->
  (success response = true ->
     (d !! "status" = Some (JStr "ERROR") ->
        create_node connection name size image location
        = Raise (ValueError ("Failed to create node: "
                   ++ py_str (default (default JNull (d !! "message"))
                                (d !! "error_message"))))
        /\ (forall field, d !! "error_message" = Some field ->
              create_node connection name size image location
              = Raise (ValueError ("Failed to create node: " ++ py_str field)))
        /\ (forall field, d !! "error_message" = None ->
              d !! "message" = Some field ->
              create_node connection name size image location
              = Raise (ValueError ("Failed to create node: " ++ py_str field)))
        /\ (forall text, d !! "error_message" = Some (JStr text) ->
              create_node connection name size image location
              = Raise (ValueError ("Failed to create node: " ++ text)))
        /\ (forall text, d !! "error_message" = None ->
              d !! "message" = Some (JStr text) ->
              create_node connection name size image location
              = Raise (ValueError ("Failed to create node: " ++ text)))
        /\ (d !! "error_message" = None -> d !! "message" = None ->
              create_node connection name size image location
              = Raise (ValueError "Failed to create node: None")))
     /\ (d !! "status" <> Some (JStr "ERROR") ->
           create_node connection name size image location = _to_node (JDict d))
     /\ (forall i n, d !! "status" = None ->
           d !! "id" = Some i -> d !! "name" = Some n ->
           exists node,
             create_node connection name size image location = Ok node
             /\ Node.id node = i /\ Node.name node = n
             /\ Node.state node = NodeState.UNKNOWN))
  /\ (success response = false ->
        create_node connection name size image location
        = (payload ← parse_error response; Raise (VendorError payload))).
Proof.
  intros response Hbody. split.
  - intros Hsuccess.
    pose proof (create_node_on_success connection name size image location d
                  Hsuccess Hbody) as Hcreate.
    assert (d !! "status" <> Some (JStr "ERROR") ->
            create_node connection name size image location = _to_node (JDict d))
      as Hmapped.
    { intros Hstatus. rewrite Hcreate.
      destruct (eq_text _ _) eqn:Heq; [| reflexivity].
      apply eq_text_spec in Heq. destruct (d !! "status") as [v |]; cbn in Heq.
      - now subst v.
      - discriminate. }
    split; [| split; [exact Hmapped |]].
    + intros Hstatus. rewrite Hstatus in Hcreate. cbn in Hcreate.
      split; [exact Hcreate | split; [| split; [| split; [| split]]]].
      * intros field Hem. rewrite Hcreate, Hem. reflexivity.
      * intros field Hem Hm. rewrite Hcreate, Hem, Hm. reflexivity.
      * intros text Hem. rewrite Hcreate, Hem. reflexivity.
      * intros text Hem Hm. rewrite Hcreate, Hem, Hm. reflexivity.
      * intros Hem Hm. rewrite Hcreate, Hem, Hm. reflexivity.
    + intros i n Hstatus Hid Hname. rewrite Hmapped by (rewrite Hstatus; discriminate).
      now apply to_node_without_status.
  - intros Hfailure. unfold create_node, request. fold response.
    rewrite Hfailure. now destruct (parse_error response).
Qed.

(** C10, amended: the vendor-level check compares with the exact text
    "ERROR" and defaults to success. When the decoded body of an
    HTTP-successful response has no [status] key, or a [status] value other
    than that text, [create_node] does not raise the [ValueError] of a
    failed creation and returns what the node mapping makes of the body:
    for a body with [id] and [name], the node of unknown state when
    [status] is absent and the node of the looked-up state when [status] is
    an object with a text [state]. *)
Theorem create_node_defaults_to_success connection name size image location
    (d : gmap string json) :
  let response := connection (create_node_request name size image location) in
  success response = true ->
  parse_body response = Ok (JDict d) ->
  (d !! "status" = None
   \/ exists v, d !! "status" = Some v /\ v <> JStr "ERROR") ->
  (forall msg, create_node connection name size image location
               <> Raise (ValueError msg))
  /\ create_node connection name size image location = _to_node (JDict d)
  /\ forall i n, d !! "id" = Some i -> d !! "name" = Some n ->
       (d !! "status" = None ->
          exists node,
            create_node connection name size image location = Ok node
            /\ Node.id node = i /\ Node.name node = n
            /\ Node.state node = NodeState.UNKNOWN)
       /\ (forall (status : gmap string json) (s : string),
             d !! "status" = Some (JDict status) ->
             status !! "state" = Some (JStr s) ->
             exists node,
               create_node connection name size image location = Ok node
               /\ Node.id node = i /\ Node.name node = n
               /\ Node.state node = spec_state_lookup s).
Proof.
  intros response Hsuccess Hbody Hstatus.
  assert (create_node connection name size image location = _to_node (JDict d))
    as ->.
  { rewrite (create_node_on_success connection name size image location d
               Hsuccess Hbody).
    destruct (eq_text _ _) eqn:Heq; [| reflexivity].
    apply eq_text_spec in Heq.
    destruct Hstatus as [Hnone | (v & Hsome & Hne)].
    - rewrite Hnone in Heq. discriminate.
    - rewrite Hsome in Heq. cbn in Heq. contradiction. }
  split; [| split; [reflexivity |]].
  - intros msg Hraise. apply to_node_error in Hraise as [Hty | [key Hkey]];
      discriminate.
  - intros i n Hid Hname. split.
    + intros Hnone. now apply to_node_without_status.
    + intros status s Hobject Hstate.
      apply to_node_object; try assumption.
      unfold node_state. py_eval. apply state_map_get_text.
Qed.

(** C8: the request [create_node] issues is the POST to /v1/servers whose
    body is [json.dumps] of the object with exactly the four keys [name],
    [description], [hardware] and [appliance_id], holding the name, the text
    "test", the object with [fixed_instance_size_id] set to the id of the
    size, and the fixed appliance constant. That request is all
    [create_node] asks of the connection, and the answer to it is what
    [create_node] maps; two calls with the same name and sizes of the same
    id issue the same request and end alike whatever their images and
    locations. *)
Theorem create_node_request_body name size image location :
  let form : gmap string json :=
    {[ "name" := name;
       "description" := JStr "test";
       "hardware" := JDict {[ "fixed_instance_size_id" := NodeSize.id size ]};
       "appliance_id" := JStr "7B9067380CB74BBDFE7F473DEEA2AF5C" ]} in
  let issued :=
    {| action := "/v1/servers";
       data := Some (json_dumps (JDict form));
       method := "POST" |} in
  dom form = {[ "name"; "description"; "hardware"; "appliance_id" ]}
  /\ create_node_form name size = JDict form
  /\ create_node_request name size image location = issued
  /\ (forall connection connection' : Connection,
        connection issued = connection' issued ->
        create_node connection name size image location
        = create_node connection' name size image location)
  /\ (forall (connection : Connection) (d : gmap string json) i n,
        success (connection issued) = true ->
        parse_body (connection issued) = Ok (JDict d) ->
        d !! "status" = None -> d !! "id" = Some i -> d !! "name" = Some n ->
        exists node,
          create_node connection name size image location = Ok node
          /\ Node.id node = i /\ Node.name node = n)
  /\ (forall (connection : Connection) (d : gmap string json) text,
        success (connection issued) = true ->
        parse_body (connection issued) = Ok (JDict d) ->
        d !! "status" = Some (JStr "ERROR") ->
        d !! "error_message" = Some (JStr text) ->
        create_node connection name size image location
        = Raise (ValueError ("Failed to create node: " ++ text)))
  /\ forall size' image' location',
       NodeSize.id size = NodeSize.id size' ->
       create_node_request name size image location
       = create_node_request name size' image' location'
       /\ forall connection,
            create_node connection name size image location
            = create_node connection name size' image' location'.
Proof.
  intros form issued.
  split; [| split; [| split; [| split; [| split; [| split]]]]].
  - unfold form. rewrite !dom_insert_L, dom_singleton_L. set_solver.
  - reflexivity.
  - reflexivity.
  - intros connection connection' Hsame. unfold create_node, request.
    change (create_node_request name size image location) with issued.
    now rewrite Hsame.
  - intros connection d i n Hsuccess Hbody Hstatus Hid Hname.
    pose proof (create_node_on_success connection name size image location d
                  Hsuccess Hbody) as Hcreate.
    rewrite Hstatus in Hcreate. cbn in Hcreate. rewrite Hcreate.
    destruct (to_node_without_status d i n Hstatus Hid Hname)
      as (node & Hnode & Hi & Hn & _).
    now exists node.
  - intros connection d text Hsuccess Hbody Hstatus Hem.
    pose proof (create_node_on_success connection name size image location d
                  Hsuccess Hbody) as Hcreate.
    rewrite Hstatus, Hem in Hcreate. exact Hcreate.
  - intros size' image' location' Hid.
    assert (create_node_request name size image location
            = create_node_request name size' image' location') as Hreq.
    { unfold create_node_request, create_node_form. now rewrite Hid. }
    split; [exact Hreq |].
    intros connection. unfold create_node. now rewrite Hreq.
Qed.

End Driver.

(** ** The properties at concrete inputs *)

Lemma parse_error_cases_witness :
  let unauthorized :=
    {| status := 401; parse_body := Ok (JDict {[ "message" := JStr "bad token" ]}) |} in
  let bare :=
    {| status := 500; parse_body := Ok (JDict {[ "other" := JStr "x" ]}) |} in
  let listed :=
    {| status := 404; parse_body := Ok (JList [JStr "gone"; JInt 3]) |} in
  @parse_error sample_builtins unauthorized
    = Raise (InvalidCredsError (JStr "bad token"))
  /\ @parse_error sample_builtins failed_with_message = Ok (JStr "boom (code: 500)")
  /\ @parse_error sample_builtins bare = Ok (JDict {[ "other" := JStr "x" ]})
  /\ @parse_error sample_builtins listed = Ok (JList [JStr "gone"; JInt 3])
  /\ @parse_error sample_builtins empty_body_failure = Ok (JStr "").
Proof.
  intros unauthorized bare listed.
  split; [| split; [| split; [| split]]].
  - apply (proj1 (@parse_error_cases sample_builtins unauthorized
                    (JDict {[ "message" := JStr "bad token" ]}) eq_refl)
             {[ "message" := JStr "bad token" ]}); reflexivity.
  - apply (proj1 (proj2 (proj2 (@parse_error_cases sample_builtins
                                  failed_with_message
                                  (JDict {[ "message" := JStr "boom" ]}) eq_refl)))
             {[ "message" := JStr "boom" ]} "boom");
      [discriminate | reflexivity | reflexivity].
  - apply (proj1 (proj2 (proj2 (proj2 (proj2
             (@parse_error_cases sample_builtins bare
                (JDict {[ "other" := JStr "x" ]}) eq_refl)))))
             {[ "other" := JStr "x" ]});
      [discriminate | reflexivity | reflexivity].
  - apply (proj1 (proj2 (proj2 (proj2 (proj2 (proj2
             (@parse_error_cases sample_builtins listed
                (JList [JStr "gone"; JInt 3]) eq_refl))))))
             [JStr "gone"; JInt 3]);
      [discriminate | reflexivity | repeat constructor; discriminate].
  - apply (proj2 (proj2 (proj2 (proj2 (proj2 (proj2
             (@parse_error_cases sample_builtins empty_body_failure
                (JStr "") eq_refl)))))));
      [discriminate | reflexivity].
Defined.

(** The claim of C3 as first stated fails at a 401 whose object body has no
    [message] (the lookup raises [KeyError]) and at a failure whose body is
    [null] (which supports no [in]). *)
Lemma parse_error_counterexample :
  status unauthorized_without_message = 401
  /\ @parse_error sample_builtins unauthorized_without_message
     = Raise (KeyError (JStr "message"))
  /\ (forall value,
        @parse_error sample_builtins unauthorized_without_message
        <> Raise (InvalidCredsError value))
  /\ status null_body_failure <> 401
  /\ parse_body null_body_failure = Ok JNull
  /\ @parse_error sample_builtins null_body_failure = Raise TypeError
  /\ @parse_error sample_builtins null_body_failure <> Ok JNull.
Proof.
  repeat split; try discriminate.
Qed.

Example to_node_powered_on :
  _to_node (JDict powered_on_payload)
  = Ok (Node.Make (JStr "1") (JStr "n") NodeState.RUNNING [JStr "1.2.3.4"] None ∅).
Proof. reflexivity. Qed.

Lemma to_node_state_lookup_witness :
  (exists node, _to_node (JDict payload_without_status) = Ok node
     /\ Node.id node = JStr "1" /\ Node.name node = JStr "n"
     /\ Node.state node = NodeState.UNKNOWN)
  /\ (exists node, _to_node (JDict powered_on_payload) = Ok node
        /\ Node.state node = NodeState.RUNNING).
Proof.
  split.
  - apply (proj1 (to_node_state_lookup payload_without_status
                    (JStr "1") (JStr "n") eq_refl eq_refl)).
    reflexivity.
  - destruct (proj2 (to_node_state_lookup powered_on_payload
                       (JStr "1") (JStr "n") eq_refl eq_refl)
                {[ "state" := JStr "POWERED_ON" ]} "POWERED_ON" eq_refl eq_refl)
      as (node & Hnode & _ & _ & _ & _ & _ & Hrunning & _).
    exists node. split; [exact Hnode | exact (Hrunning eq_refl)].
Defined.

Lemma to_node_status_without_state_witness :
  payload_without_state !! "status" = Some (JDict {[ "percent" := JInt 50 ]})
  /\ _to_node (JDict payload_without_state) = Raise (KeyError (JStr "state")).
Proof.
  split; [reflexivity |].
  apply (proj1 (to_node_status_without_state payload_without_state
                  {[ "percent" := JInt 50 ]} eq_refl eq_refl)).
Defined.

Lemma to_location_lossless_witness :
  exists loc, _to_location (JDict london_payload) = Ok loc
    /\ NodeLocation.id loc = JStr "L1"
    /\ NodeLocation.name loc = JStr "Lon"
    /\ NodeLocation.country loc = JStr "GB"
    /\ location_payload loc ⊆ london_payload
    /\ _to_location (JDict (location_payload loc)) = Ok loc.
Proof.
  apply (to_location_lossless london_payload (JStr "L1") (JStr "Lon") (JStr "GB"));
    reflexivity.
Defined.

Example to_location_london : _to_location (JDict london_payload) = Ok london.
Proof. reflexivity. Qed.

Example to_size_sample :
  @_to_size sample_builtins (JDict (size_payload [JDict {[ "size" := JInt 40 ]}]))
  = Ok (sample_size 2048).
Proof. reflexivity. Qed.

Lemma to_size_hardware_witness :
  (exists size,
      @_to_size sample_builtins
        (JDict (size_payload [JDict {[ "size" := JInt 40 ]}])) = Ok size
      /\ NodeSize.ram size = 2048 /\ NodeSize.disk size = JInt 40)
  /\ (exists size,
        @_to_size sample_builtins (JDict rich_size_payload) = Ok size
        /\ NodeSize.ram size = 2048 /\ NodeSize.disk size = JInt 40)
  /\ (exists size,
        @_to_size sample_builtins (JDict (float_ram_payload 3 (-1))) = Ok size
        /\ NodeSize.ram size = 1024 /\ NodeSize.disk size = JInt 40)
  /\ @_to_size sample_builtins (JDict (size_payload [])) = Raise IndexError
  /\ @_to_size sample_builtins (JDict size_payload_without_hardware)
     = Raise (UnboundLocalError "ram").
Proof.
  split; [| split; [| split; [| split]]].
  - pose proof (proj1 (@to_size_hardware sample_builtins
                         (size_payload [JDict {[ "size" := JInt 40 ]}]))
                  (size_hardware_block [JDict {[ "size" := JInt 40 ]}])
                  {[ "size" := JInt 40 ]} (JStr "s1") (JStr "S") (JStr "2") (JInt 40)
                  []) as Hmapped.
    destruct Hmapped as (_ & _ & _ & Htext); try reflexivity.
    apply (Htext "2" 2); reflexivity.
  - pose proof (proj1 (@to_size_hardware sample_builtins rich_size_payload)
                  {[ "ram" := JInt 2; "vcore" := JInt 4;
                     "hdds" := JList [JDict {[ "size" := JInt 40 ]}] ]}
                  {[ "size" := JInt 40 ]} (JStr "s1") (JStr "S") (JInt 2) (JInt 40)
                  []) as Hmapped.
    destruct Hmapped as (_ & Hinteger & _); try reflexivity.
    apply (Hinteger 2); reflexivity.
  - pose proof (proj1 (@to_size_hardware sample_builtins (float_ram_payload 3 (-1)))
                  {[ "ram" := JFloat (S754_finite false 3 (-1));
                     "hdds" := JList [JDict {[ "size" := JInt 40 ]}] ]}
                  {[ "size" := JInt 40 ]} (JStr "s1") (JStr "S")
                  (JFloat (S754_finite false 3 (-1))) (JInt 40) []) as Hmapped.
    destruct Hmapped as (_ & _ & Hfloat & _); try reflexivity.
    apply (Hfloat false 3%positive (-1)); reflexivity.
  - apply (proj1 (proj2 (proj1 (proj2 (@to_size_hardware sample_builtins (size_payload [])))
                    (size_hardware_block []) eq_refl eq_refl))
             (JStr "2") 2); reflexivity.
  - apply (proj2 (proj2 (proj2 (@to_size_hardware sample_builtins
                                  size_payload_without_hardware)) eq_refl)
             (JStr "s1") (JStr "S")); reflexivity.
Defined.

(** The claim of C5 as first stated fails at a RAM figure of half a
    gigabyte, the float [1 * 2 ^ -1]: times 1024 it is 512, and the size
    mapping returns 0, the truncated figure times 1024. *)
Lemma to_size_half_gigabyte_counterexample :
  1 * 1024 = 512 * 2 ^ 1
  /\ exists size,
       @_to_size sample_builtins (JDict (float_ram_payload 1 (-1))) = Ok size
       /\ NodeSize.ram size = 0 /\ NodeSize.ram size <> 512.
Proof.
  split; [reflexivity |].
  eexists. split; [reflexivity |]. split; [reflexivity | discriminate].
Qed.

Example create_node_quota_exceeded :
  @create_node sample_builtins (constant_server 200 quota_body)
    (JStr "web") (sample_size 2048) (sample_image "ubuntu") None
  = Raise (ValueError "Failed to create node: quota exceeded").
Proof. reflexivity. Qed.

Example create_node_error_without_text :
  @create_node sample_builtins (constant_server 200 {[ "status" := JStr "ERROR" ]})
    (JStr "web") (sample_size 2048) (sample_image "ubuntu") None
  = Raise (ValueError "Failed to create node: None").
Proof. reflexivity. Qed.

Example create_node_accepted :
  @create_node sample_builtins (constant_server 202 powered_on_payload)
    (JStr "web") (sample_size 2048) (sample_image "ubuntu") (Some london)
  = Ok (Node.Make (JStr "1") (JStr "n") NodeState.RUNNING [JStr "1.2.3.4"] None ∅).
Proof. reflexivity. Qed.

Example create_node_http_failure :
  @create_node sample_builtins (constant_server 500 quota_body)
    (JStr "web") (sample_size 2048) (sample_image "ubuntu") None
  = Raise (VendorError (JDict quota_body)).
Proof. reflexivity. Qed.

Lemma create_node_vendor_error_witness :
  success (constant_server 200 quota_body
             (@create_node_request sample_builtins (JStr "web") (sample_size 2048)
                (sample_image "ubuntu") None)) = true
  /\ quota_body !! "status" = Some (JStr "ERROR")
  /\ @create_node sample_builtins (constant_server 200 quota_body)
       (JStr "web") (sample_size 2048) (sample_image "ubuntu") None
     = Raise (ValueError "Failed to create node: quota exceeded")
  /\ @create_node sample_builtins
       (constant_server 200 {[ "status" := JStr "ERROR"; "message" := JStr "denied" ]})
       (JStr "web") (sample_size 2048) (sample_image "ubuntu") None
     = Raise (ValueError "Failed to create node: denied")
  /\ @create_node sample_builtins (constant_server 200 powered_on_payload)
       (JStr "web") (sample_size 2048) (sample_image "ubuntu") None
     = _to_node (JDict powered_on_payload)
  /\ (exists node,
        @create_node sample_builtins (constant_server 201 payload_without_status)
          (JStr "web") (sample_size 2048) (sample_image "ubuntu") None
        = Ok node
        /\ Node.id node = JStr "1" /\ Node.name node = JStr "n"
        /\ Node.state node = NodeState.UNKNOWN)
  /\ @create_node sample_builtins (constant_server 500 quota_body)
       (JStr "web") (sample_size 2048) (sample_image "ubuntu") None
     = Raise (VendorError (JDict quota_body)).
Proof.
  split; [reflexivity | split; [reflexivity |]].
  split; [| split; [| split; [| split]]].
  - pose proof (@create_node_vendor_error sample_builtins
                  (constant_server 200 quota_body) (JStr "web") (sample_size 2048)
                  (sample_image "ubuntu") None quota_body) as Hcreate.
    destruct Hcreate as [Hsuccess _]; [reflexivity |].
    destruct Hsuccess as (Herror & _); [reflexivity |].
    destruct Herror as (_ & _ & _ & Htext & _); [reflexivity |].
    apply (Htext "quota exceeded"). reflexivity.
  - pose proof (@create_node_vendor_error sample_builtins
                  (constant_server 200
                     {[ "status" := JStr "ERROR"; "message" := JStr "denied" ]})
                  (JStr "web") (sample_size 2048) (sample_image "ubuntu") None
                  {[ "status" := JStr "ERROR"; "message" := JStr "denied" ]})
      as Hcreate.
    destruct Hcreate as [Hsuccess _]; [reflexivity |].
    destruct Hsuccess as (Herror & _); [reflexivity |].
    destruct Herror as (_ & _ & _ & _ & Htext & _); [reflexivity |].
    apply (Htext "denied"); reflexivity.
  - pose proof (@create_node_vendor_error sample_builtins
                  (constant_server 200 powered_on_payload) (JStr "web")
                  (sample_size 2048) (sample_image "ubuntu") None
                  powered_on_payload) as Hcreate.
    destruct Hcreate as [Hsuccess _]; [reflexivity |].
    destruct Hsuccess as (_ & Hmapped & _); [reflexivity |].
    apply Hmapped. discriminate.
  - pose proof (@create_node_vendor_error sample_builtins
                  (constant_server 201 payload_without_status) (JStr "web")
                  (sample_size 2048) (sample_image "ubuntu") None
                  payload_without_status) as Hcreate.
    destruct Hcreate as [Hsuccess _]; [reflexivity |].
    destruct Hsuccess as (_ & _ & Hnode); [reflexivity |].
    apply (Hnode (JStr "1") (JStr "n")); reflexivity.
  - pose proof (@create_node_vendor_error sample_builtins
                  (constant_server 500 quota_body) (JStr "web") (sample_size 2048)
                  (sample_image "ubuntu") None quota_body) as Hcreate.
    destruct Hcreate as (_ & Hfailure); [reflexivity |].
    rewrite Hfailure by reflexivity. reflexivity.
Defined.

Lemma create_node_defaults_to_success_witness :
  payload_without_status !! "status" = None
  /\ (exists node,
        @create_node sample_builtins (constant_server 201 payload_without_status)
          (JStr "web") (sample_size 2048) (sample_image "ubuntu") None
        = Ok node
        /\ Node.id node = JStr "1" /\ Node.name node = JStr "n"
        /\ Node.state node = NodeState.UNKNOWN)
  /\ (exists node,
        @create_node sample_builtins (constant_server 202 powered_on_payload)
          (JStr "web") (sample_size 2048) (sample_image "ubuntu") None
        = Ok node
        /\ Node.id node = JStr "1" /\ Node.name node = JStr "n"
        /\ Node.state node = NodeState.RUNNING)
  /\ lowercase_error_body !! "status" = Some (JStr "error")
  /\ forall msg,
       @create_node sample_builtins (constant_server 200 lowercase_error_body)
         (JStr "web") (sample_size 2048) (sample_image "ubuntu") None
       <> Raise (ValueError msg).
Proof.
  split; [reflexivity | split; [| split; [| split; [reflexivity |]]]].
  - pose proof (@create_node_defaults_to_success sample_builtins
                  (constant_server 201 payload_without_status) (JStr "web")
                  (sample_size 2048) (sample_image "ubuntu") None
                  payload_without_status) as Hcreate.
    destruct Hcreate as (_ & _ & Hnode);
      [reflexivity | reflexivity | left; reflexivity |].
    apply (Hnode (JStr "1") (JStr "n")); reflexivity.
  - pose proof (@create_node_defaults_to_success sample_builtins
                  (constant_server 202 powered_on_payload) (JStr "web")
                  (sample_size 2048) (sample_image "ubuntu") None
                  powered_on_payload) as Hcreate.
    destruct Hcreate as (_ & _ & Hnode);
      [reflexivity | reflexivity
       | right; eexists; split; [reflexivity | discriminate] |].
    apply (proj2 (Hnode (JStr "1") (JStr "n") eq_refl eq_refl)
             {[ "state" := JStr "POWERED_ON" ]} "POWERED_ON"); reflexivity.
  - pose proof (@create_node_defaults_to_success sample_builtins
                  (constant_server 200 lowercase_error_body) (JStr "web")
                  (sample_size 2048) (sample_image "ubuntu") None
                  lowercase_error_body) as Hcreate.
    destruct Hcreate as (Hnever & _);
      [reflexivity | reflexivity
       | right; exists (JStr "error"); split; [reflexivity | discriminate] |].
    exact Hnever.
Defined.

(** The claim of C10 as first stated fails at its own example: with the
    text "error" for [status] the creation error is not raised, and the
    node mapping, which subscripts [status], raises [TypeError], so that no
    node is returned. *)
Lemma create_node_text_status_counterexample :
  success (constant_server 200 lowercase_error_body
             (@create_node_request sample_builtins (JStr "web") (sample_size 2048)
                (sample_image "ubuntu") None)) = true
  /\ lowercase_error_body !! "status" = Some (JStr "error")
  /\ JStr "error" <> JStr "ERROR"
  /\ @create_node sample_builtins (constant_server 200 lowercase_error_body)
       (JStr "web") (sample_size 2048) (sample_image "ubuntu") None
     = Raise TypeError
  /\ forall node,
       @create_node sample_builtins (constant_server 200 lowercase_error_body)
         (JStr "web") (sample_size 2048) (sample_image "ubuntu") None
       <> Ok node.
Proof.
  repeat split; try discriminate.
Qed.

Example create_node_lowercase_error :
  @create_node sample_builtins (constant_server 200 lowercase_error_body)
    (JStr "web") (sample_size 2048) (sample_image "ubuntu") None
  = Raise TypeError.
Proof. reflexivity. Qed.

Lemma create_node_request_body_witness :
  @create_node_request sample_builtins (JStr "web") (sample_size 2048)
    (sample_image "ubuntu") None
  = web_create_request
  /\ (exists node,
        @create_node sample_builtins
          (only_server web_create_request 202 payload_without_status)
          (JStr "web") (sample_size 2048) (sample_image "ubuntu") None
        = Ok node
        /\ Node.id node = JStr "1" /\ Node.name node = JStr "n")
  /\ @create_node sample_builtins (only_server web_create_request 200 quota_body)
       (JStr "web") (sample_size 2048) (sample_image "ubuntu") None
     = Raise (ValueError "Failed to create node: quota exceeded")
  /\ NodeSize.id (sample_size 2048) = NodeSize.id (sample_size 512)
  /\ @create_node_request sample_builtins (JStr "web") (sample_size 2048)
       (sample_image "ubuntu") None
     = @create_node_request sample_builtins (JStr "web") (sample_size 512)
         (sample_image "debian") (Some london).
Proof.
  pose proof (@create_node_request_body sample_builtins (JStr "web")
                (sample_size 2048) (sample_image "ubuntu") None)
    as (_ & _ & Hissued & _ & Hmapped & Herror & Halike).
  split; [exact Hissued | split; [| split; [| split; [reflexivity |]]]].
  - apply (Hmapped (only_server web_create_request 202 payload_without_status)
             payload_without_status (JStr "1") (JStr "n")); reflexivity.
  - apply (Herror (only_server web_create_request 200 quota_body) quota_body
             "quota exceeded"); reflexivity.
  - apply (proj1 (Halike (sample_size 512) (sample_image "debian") (Some london)
                    eq_refl)).
Defined.

Example create_node_request_sample :
  data (@create_node_request sample_builtins (JStr "web") (sample_size 2048)
          (sample_image "ubuntu") None)
  = Some (render (JDict {[ "name" := JStr "web";
                           "description" := JStr "test";
                           "hardware" :=
                             JDict {[ "fixed_instance_size_id" := JStr "s1" ]};
                           "appliance_id" := JStr "7B9067380CB74BBDFE7F473DEEA2AF5C" ]})).
Proof. reflexivity. Qed.

(** * Further properties of the two modules *)

(** Evaluation of a body, one bind at a time. *)
Ltac py_run :=
  repeat first
    [ lookup_step
    | rewrite bind_ok
    | rewrite bind_raise
    | rewrite dict_get_object ].


(** ** Default headers *)

Import OneAndOne_v1_Connection.

(** X1: the two default headers are set to the key and to the JSON content
    type whatever the caller had put under those names; every other header
    is left as it was, and no other header appears. *)
Theorem add_default_headers_lookup (key : json) (headers : gmap string json) :
  add_default_headers key headers !! "X-token" = Some key
  /\ add_default_headers key headers !! "Content-Type" = Some (JStr "application/json")
  /\ (forall name, name <> "X-token" -> name <> "Content-Type" ->
        add_default_headers key headers !! name = headers !! name)
  /\ dom (add_default_headers key headers)
     = dom headers ∪ {[ "X-token"; "Content-Type" ]}.
Proof.
  unfold add_default_headers. repeat split.
  - now rewrite lookup_insert_ne, lookup_insert_eq.
  - now rewrite lookup_insert_eq.
  - intros name Htoken Htype. now rewrite !lookup_insert_ne.
  - rewrite !dom_insert_L. apply set_eq. intros name.
    rewrite !elem_of_union, !elem_of_singleton. tauto.
Qed.

(** X2: adding the default headers twice is adding them once, and of two calls
    with different keys the later key is the one that stays. *)
Theorem add_default_headers_again (key earlier : json) (headers : gmap string json) :
  add_default_headers key (add_default_headers key headers)
  = add_default_headers key headers
  /\ add_default_headers key (add_default_headers earlier headers)
     = add_default_headers key headers.
Proof.
  assert (forall k1 k2, add_default_headers k2 (add_default_headers k1 headers)
                        = add_default_headers k2 headers) as Hlater.
  { intros k1 k2. unfold add_default_headers. apply map_eq. intros name.
    destruct (decide (name = "Content-Type")) as [-> | Htype].
    - now rewrite !lookup_insert_eq.
    - rewrite !(lookup_insert_ne _ "Content-Type") by congruence.
      destruct (decide (name = "X-token")) as [-> | Htoken].
      + now rewrite !lookup_insert_eq.
      + now rewrite !lookup_insert_ne by congruence. }
  split; apply Hlater.
Qed.

(** ** More on the response decoder *)

Section DecoderEdges.
Context `{PyBuiltins}.

(** X3: on status 401 [parse_error] never returns: it raises for every body.
    The decoder's own error comes first; an object without [message] gives
    the [KeyError] of the lookup in place of the credentials error; a body
    that is no object cannot be subscripted. *)
Theorem parse_error_unauthorized (r : Response) :
  status r = 401 ->
  raises (parse_error r)
  /\ (forall e, parse_body r = Raise e -> parse_error r = Raise e)
  /\ (forall d : gmap string json, parse_body r = Ok (JDict d) ->
        d !! "message" = None ->
        parse_error r = Raise (KeyError (JStr "message")))
  /\ (forall body, parse_body r = Ok body -> is_object body = false ->
        parse_error r = Raise TypeError).
Proof.
  intros Hst. unfold parse_error, httplib.UNAUTHORIZED. rewrite Hst.
  cbn [Z.eqb Pos.eqb]. repeat split.
  - destruct (parse_body r) as [body | e]; [| now exists e].
    py_run. destruct (getitem body "message") as [m | e]; now eexists.
  - intros e ->. reflexivity.
  - intros d -> Hm. now py_run.
  - intros body -> Hshape. destruct body; try reflexivity. discriminate.
Qed.

(** X4: whatever [parse_error] returns is either the decoded body, when
    ['message' in body] is false, or the text made of the [message] of an
    object and the status code; it returns nothing on status 401. *)
Theorem parse_error_returns (r : Response) (v : json) :
  parse_error r = Ok v ->
  status r <> 401
  /\ exists body, parse_body r = Ok body
     /\ ((contains "message" body = Ok false /\ v = body)
         \/ exists (d : gmap string json) m,
              body = JDict d /\ d !! "message" = Some m
              /\ v = JStr (py_str m ++ " (code: " ++ str_of_int (status r) ++ ")")).
Proof.
  unfold parse_error, httplib.UNAUTHORIZED.
  destruct (Z.eqb_spec (status r) 401) as [Heq | Hne].
  - destruct (parse_body r) as [body | e]; [| discriminate].
    py_run. now destruct (getitem body "message").
  - intros Hret. split; [exact Hne |].
    destruct (parse_body r) as [body | e]; [| discriminate].
    exists body. split; [reflexivity |]. revert Hret. py_run.
    destruct (contains "message" body) as [[] | e] eqn:Hin; py_run;
      [| intros [= <-]; now left | discriminate].
    destruct body; try discriminate.
    cbn [getitem]. destruct (d !! "message") as [m |] eqn:Hm; [| discriminate].
    py_run. intros [= <-]. right. now exists d, m.
Qed.

End DecoderEdges.

(** ** More on the node mapping *)

Lemma bind_ok_inv {A B} (m : result A) (k : A -> result B) (b : B) :
  (m ≫= k) = Ok b -> exists a, m = Ok a /\ k a = Ok b.
Proof. destruct m as [a | e]; [now exists a | discriminate]. Qed.

Lemma getitem_ok_inv data key v :
  getitem data key = Ok v ->
  exists d : gmap string json, data = JDict d /\ d !! key = Some v.
Proof.
  destruct data; try discriminate. cbn [getitem].
  destruct (d !! key) as [w |] eqn:Hkey; [| discriminate].
  intros [= <-]. now exists d.
Qed.

(** The copying loop on an object: each listed key the object has is set
    from it, everything else of the accumulator is kept. *)
Lemma copy_present_lookup (keys : list string) (d extra : gmap string json) :
  exists copied, copy_present keys (JDict d) extra = Ok copied
    /\ forall key,
         copied !! key
         = if bool_decide (key ∈ keys)
           then match d !! key with Some v => Some v | None => extra !! key end
           else extra !! key.
Proof.
  revert extra. induction keys as [| k rest IH]; intros extra; cbn [copy_present].
  - exists extra. split; [reflexivity |]. intros key.
    rewrite bool_decide_eq_false_2; [reflexivity | apply not_elem_of_nil].
  - destruct (d !! k) as [v |] eqn:Hk; py_run.
    + destruct (IH (<[k := v]> extra)) as (copied & -> & Hcopied).
      exists copied. split; [reflexivity |]. intros key. rewrite Hcopied.
      destruct (decide (key = k)) as [-> | Hne].
      * rewrite Hk, lookup_insert_eq.
        rewrite (bool_decide_eq_true_2 (k ∈ k :: rest)) by (apply elem_of_cons; now left).
        now destruct (bool_decide (k ∈ rest)).
      * rewrite lookup_insert_ne by congruence.
        destruct (bool_decide_reflect (key ∈ rest)) as [Hin | Hout].
        -- rewrite bool_decide_eq_true_2; [reflexivity | apply elem_of_cons; now right].
        -- rewrite bool_decide_eq_false_2; [reflexivity |].
           intros [Heq | Hin]%elem_of_cons; congruence.
    + destruct (IH extra) as (copied & -> & Hcopied).
      exists copied. split; [reflexivity |]. intros key. rewrite Hcopied.
      destruct (decide (key = k)) as [-> | Hne].
      * rewrite Hk.
        rewrite (bool_decide_eq_true_2 (k ∈ k :: rest)) by (apply elem_of_cons; now left).
        now destruct (bool_decide (k ∈ rest)).
      * destruct (bool_decide_reflect (key ∈ rest)) as [Hin | Hout].
        -- rewrite bool_decide_eq_true_2; [reflexivity | apply elem_of_cons; now right].
        -- rewrite bool_decide_eq_false_2; [reflexivity |].
           intros [Heq | Hin]%elem_of_cons; congruence.
Qed.

Lemma node_public_ips_lookup (d : gmap string json) :
  node_public_ips (JDict d)
  = Ok match d !! "ips" with
       | None | Some JNull => []
       | Some ips => [ips]
       end.
Proof.
  unfold node_public_ips. destruct (d !! "ips") as [ips |] eqn:Hips; now py_run.
Qed.

Lemma node_state_lookup (d : gmap string json) :
  node_state (JDict d)
  = match d !! "status" with
    | None => Ok NodeState.UNKNOWN
    | Some status => state ← getitem status "state"; state_map_get state
    end.
Proof.
  unfold node_state. destruct (d !! "status") as [status |] eqn:Hstatus; now py_run.
Qed.

(** What a returned node was made of. *)
Lemma to_node_ok_inv data node :
  _to_node data = Ok node ->
  exists state ips extra i n,
    node_state data = Ok state
    /\ node_public_ips data = Ok ips
    /\ copy_present ["backups_active"; "region_id"; "image_id"; "size_id"] data ∅
       = Ok extra
    /\ getitem data "id" = Ok i
    /\ getitem data "name" = Ok n
    /\ node = Node.Make i n state ips None extra.
Proof.
  unfold _to_node. intros Hnode.
  apply bind_ok_inv in Hnode as (state & Hstate & Hnode).
  apply bind_ok_inv in Hnode as (ips & Hips & Hnode).
  apply bind_ok_inv in Hnode as (extra & Hextra & Hnode).
  apply bind_ok_inv in Hnode as (i & Hi & Hnode).
  apply bind_ok_inv in Hnode as (n & Hn & Hnode).
  injection Hnode as <-. now exists state, ips, extra, i, n.
Qed.

(** X5: the [extra] of a returned node is the payload restricted to the four
    pass-through keys: a listed key is there exactly when the payload has
    it, with the payload's value, and no other key of the payload is
    copied. *)
Theorem to_node_extra (d : gmap string json) (node : Node.t) :
  _to_node (JDict d) = Ok node ->
  forall key,
    Node.extra node !! key
    = if bool_decide (key ∈ ["backups_active"; "region_id"; "image_id"; "size_id"])
      then d !! key
      else None.
Proof.
  intros Hnode key.
  apply to_node_ok_inv in Hnode
    as (state & ips & extra & i & n & _ & _ & Hextra & _ & _ & ->).
  destruct (copy_present_lookup
              ["backups_active"; "region_id"; "image_id"; "size_id"] d ∅)
    as (copied & Hcopied & Hlookup).
  rewrite Hcopied in Hextra. injection Hextra as <-. cbn [Node.extra].
  rewrite Hlookup, lookup_empty. now destruct (d !! key), (bool_decide _).
Qed.

(** X6: the addresses of a returned node: none when [ips] is absent or null,
    otherwise the one value of [ips], whatever it is; the private addresses
    are never set. *)
Theorem to_node_public_ips (d : gmap string json) (node : Node.t) :
  _to_node (JDict d) = Ok node ->
  Node.public_ips node
  = match d !! "ips" with
    | None | Some JNull => []
    | Some ips => [ips]
    end
  /\ Node.private_ips node = None.
Proof.
  intros Hnode.
  apply to_node_ok_inv in Hnode
    as (state & ips & extra & i & n & _ & Hips & _ & _ & _ & ->).
  rewrite node_public_ips_lookup in Hips. injection Hips as <-. now split.
Qed.

Lemma state_map_get_ok (v : json) :
  (exists state, state_map_get v = Ok state) <-> hashable v = true.
Proof.
  destruct v; cbn; split; try discriminate; eauto; intros [state Hstate];
    discriminate.
Qed.

(** The shape of an object the node mapping accepts. *)
Lemma to_node_ok_shape (d : gmap string json) (node : Node.t) :
  _to_node (JDict d) = Ok node ->
  is_Some (d !! "id") /\ is_Some (d !! "name")
  /\ (d !! "status" = None
      \/ exists (status : gmap string json) state,
           d !! "status" = Some (JDict status)
           /\ status !! "state" = Some state /\ hashable state = true).
Proof.
  intros Hnode.
  apply to_node_ok_inv in Hnode
    as (state & ips & extra & i & n & Hstate & _ & _ & Hi & Hn & _).
  apply getitem_ok_inv in Hi as (di & [= <-] & Hi).
  apply getitem_ok_inv in Hn as (dn & [= <-] & Hn).
  split; [eauto | split; [eauto |]].
  rewrite node_state_lookup in Hstate.
  destruct (d !! "status") as [status |]; [right | now left].
  apply bind_ok_inv in Hstate as (v & Hv & Hstate).
  apply getitem_ok_inv in Hv as (fields & -> & Hv).
  exists fields, v. repeat split; try assumption.
  apply state_map_get_ok. eauto.
Qed.

(** X7: the node mapping returns a node for an object exactly when [id] and
    [name] are present and [status] is absent or an object whose [state] is
    present and can be hashed. *)
Theorem to_node_succeeds_iff (d : gmap string json) :
  (exists node, _to_node (JDict d) = Ok node)
  <-> is_Some (d !! "id") /\ is_Some (d !! "name")
      /\ (d !! "status" = None
          \/ exists (status : gmap string json) state,
               d !! "status" = Some (JDict status)
               /\ status !! "state" = Some state /\ hashable state = true).
Proof.
  split.
  - intros [node Hnode]. now apply to_node_ok_shape in Hnode.
  - intros ([i Hi] & [n Hn] & Hstatus).
    assert (exists state, node_state (JDict d) = Ok state) as [state Hstate].
    { rewrite node_state_lookup.
      destruct Hstatus as [-> | (status & v & -> & Hv & Hhash)]; [eauto |].
      py_run. now apply state_map_get_ok. }
    destruct (to_node_object d i n state Hi Hn Hstate) as (node & Hnode & _).
    eauto.
Qed.

Lemma copy_present_not_object keys data extra :
  is_object data = false ->
  copy_present keys data extra = Ok extra
  \/ copy_present keys data extra = Raise TypeError.
Proof.
  intros Hshape. induction keys as [| key rest IH]; cbn [copy_present]; [now left |].
  destruct data; try discriminate; cbn [contains]; py_run;
    try (right; reflexivity);
    (split_guard; [right; reflexivity | exact IH]).
Qed.

(** A payload that is no object is never mapped to a node: the mapping
    raises [TypeError], also for a list or a text, which support [in]. *)
Lemma to_node_not_object (data : json) :
  is_object data = false -> _to_node data = Raise TypeError.
Proof.
  intros Hshape. unfold _to_node.
  assert (getitem data "id" = Raise TypeError) as Hid
    by (destruct data; try reflexivity; discriminate).
  assert (node_state data = Raise TypeError
          \/ node_state data = Ok NodeState.UNKNOWN) as [-> | ->];
    [| reflexivity |].
  { unfold node_state. destruct data; try discriminate; cbn [contains]; py_run;
      try (left; reflexivity);
      (split_guard; [left | right]; reflexivity). }
  assert (node_public_ips data = Raise TypeError
          \/ node_public_ips data = Ok []) as [-> | ->];
    [| reflexivity |].
  { unfold node_public_ips. destruct data; try discriminate; cbn [contains];
      py_run; try (left; reflexivity);
      (split_guard; [left | right]; reflexivity). }
  py_run.
  destruct (copy_present_not_object
              ["backups_active"; "region_id"; "image_id"; "size_id"] data ∅ Hshape)
    as [-> | ->]; [| reflexivity].
  py_run. now rewrite Hid.
Qed.

(** X8: a lifecycle state other than unknown tells the vendor state: the node
    is pending, rebooting or running only when [status.state] is the text
    DEPLOYING, POWERED_OFF or POWERED_ON respectively. *)
Theorem to_node_state_reflects (d : gmap string json) (node : Node.t) :
  _to_node (JDict d) = Ok node ->
  Node.state node <> NodeState.UNKNOWN ->
  exists (status : gmap string json) (s : string),
    d !! "status" = Some (JDict status)
    /\ status !! "state" = Some (JStr s)
    /\ ((Node.state node = NodeState.PENDING /\ s = "DEPLOYING")
        \/ (Node.state node = NodeState.REBOOTING /\ s = "POWERED_OFF")
        \/ (Node.state node = NodeState.RUNNING /\ s = "POWERED_ON")).
Proof.
  intros Hnode Hknown.
  apply to_node_ok_inv in Hnode
    as (state & ips & extra & i & n & Hstate & _ & _ & _ & _ & ->).
  cbn [Node.state] in *. rewrite node_state_lookup in Hstate.
  destruct (d !! "status") as [status |]; [| now injection Hstate as <-].
  apply bind_ok_inv in Hstate as (v & Hv & Hstate).
  apply getitem_ok_inv in Hv as (fields & -> & Hv).
  destruct v; try discriminate; try (now injection Hstate as <-).
  exists fields, s. split; [reflexivity | split; [assumption |]].
  rewrite state_map_get_text in Hstate. injection Hstate as <-.
  unfold spec_state_lookup in *.
  destruct (String.eqb_spec s "DEPLOYING"); [now left |].
  destruct (String.eqb_spec s "POWERED_OFF"); [now right; left |].
  destruct (String.eqb_spec s "POWERED_ON"); [now right; right |].
  contradiction.
Qed.

(** ** The image and location mappings *)

(** X9: an image payload with the five fields maps to the image with that [id]
    and [name] whose [extra] holds [os], [os_version] and [architecture]
    and nothing else of the payload. *)
Theorem to_image_fields (d : gmap string json) (i n os version arch : json) :
  d !! "id" = Some i -> d !! "name" = Some n ->
  d !! "os" = Some os -> d !! "os_version" = Some version ->
  d !! "architecture" = Some arch ->
  exists image, _to_image (JDict d) = Ok image
    /\ NodeImage.id image = i /\ NodeImage.name image = n
    /\ NodeImage.extra image !! "os" = Some os
    /\ NodeImage.extra image !! "os_version" = Some version
    /\ NodeImage.extra image !! "architecture" = Some arch
    /\ dom (NodeImage.extra image) = {[ "os"; "os_version"; "architecture" ]}.
Proof.
  intros Hid Hname Hos Hversion Harch. unfold _to_image. py_run.
  eexists. split; [reflexivity |]. cbn. repeat split.
Qed.

(** X10: the image mapping reads [os], [os_version], [architecture], [id] and
    [name] in that order: it raises the [KeyError] of the first one the
    payload lacks, and returns an image when none is missing. *)
Theorem to_image_first_missing (d : gmap string json) :
  match first_missing ["os"; "os_version"; "architecture"; "id"; "name"] d with
  | Some key => _to_image (JDict d) = Raise (KeyError (JStr key))
  | None => exists image, _to_image (JDict d) = Ok image
  end.
Proof.
  unfold _to_image. cbn [first_missing].
  destruct (d !! "os") eqn:Hos; [| now py_run].
  destruct (d !! "os_version") eqn:Hversion; [| now py_run].
  destruct (d !! "architecture") eqn:Harch; [| now py_run].
  destruct (d !! "id") eqn:Hid; [| now py_run].
  destruct (d !! "name") eqn:Hname; [| now py_run].
  py_run. now eexists.
Qed.

(** X11: the location mapping reads [id], [location] and [country_code] in that
    order: it raises the [KeyError] of the first one the payload lacks, and
    returns a location when none is missing. *)
Theorem to_location_first_missing (d : gmap string json) :
  match first_missing ["id"; "location"; "country_code"] d with
  | Some key => _to_location (JDict d) = Raise (KeyError (JStr key))
  | None => exists loc, _to_location (JDict d) = Ok loc
  end.
Proof.
  unfold _to_location. cbn [first_missing].
  destruct (d !! "id") eqn:Hid; [| now py_run].
  destruct (d !! "location") eqn:Hloc; [| now py_run].
  destruct (d !! "country_code") eqn:Hcc; [| now py_run].
  py_run. now eexists.
Qed.

Lemma to_image_not_object (data : json) :
  is_object data = false -> _to_image data = Raise TypeError.
Proof. destruct data; try reflexivity; discriminate. Qed.

Lemma to_location_not_object (data : json) :
  is_object data = false -> _to_location data = Raise TypeError.
Proof. destruct data; try reflexivity; discriminate. Qed.

(** ** More on the size mapping *)

Section SizeMapping.
Context `{PyBuiltins}.

(** What a returned size was made of. *)
Lemma to_size_ok_inv data size :
  _to_size data = Ok size ->
  exists (d hw first : gmap string json) rest i n r g sz extra,
    data = JDict d
    /\ d !! "id" = Some i /\ d !! "name" = Some n
    /\ d !! "hardware" = Some (JDict hw)
    /\ hw !! "ram" = Some r /\ py_int r = Ok g
    /\ hw !! "hdds" = Some (JList (JDict first :: rest))
    /\ first !! "size" = Some sz
    /\ copy_present ["vcore"; "cores_per_processor"] (JDict hw) ∅ = Ok extra
    /\ size = NodeSize.Make i n (g * 1024) sz 0 0 extra.
Proof.
  unfold _to_size. intros Hsize.
  apply bind_ok_inv in Hsize as ([bound extra] & Hhardware & Hsize).
  apply bind_ok_inv in Hsize as (i & Hi & Hsize).
  apply bind_ok_inv in Hsize as (n & Hn & Hsize).
  apply getitem_ok_inv in Hi as (d & -> & Hi).
  apply getitem_ok_inv in Hn as (d' & [= <-] & Hn).
  destruct bound as [[ram hdds_size] |]; [| discriminate].
  injection Hsize as <-.
  unfold size_hardware in Hhardware.
  destruct (d !! "hardware") as [hardware |] eqn:Hhw; revert Hhardware; py_run;
    [| discriminate].
  intros Hhardware.
  apply bind_ok_inv in Hhardware as (r & Hr & Hhardware).
  apply getitem_ok_inv in Hr as (hw & -> & Hr).
  apply bind_ok_inv in Hhardware as (g & Hg & Hhardware).
  apply bind_ok_inv in Hhardware as (hdds & Hhdds & Hhardware).
  apply getitem_ok_inv in Hhdds as (hw' & [= <-] & Hhdds).
  apply bind_ok_inv in Hhardware as (item & Hitem & Hhardware).
  apply bind_ok_inv in Hhardware as (sz & Hsz & Hhardware).
  apply getitem_ok_inv in Hsz as (first & -> & Hsz).
  apply bind_ok_inv in Hhardware as (copied & Hcopied & Hhardware).
  injection Hhardware as <- <- <-.
  assert (exists rest, hdds = JList (JDict first :: rest)) as [rest ->].
  { destruct hdds; try discriminate.
    - cbn in Hitem. destruct (String.get _ _); discriminate.
    - destruct l as [| x rest]; [discriminate |].
      rewrite getindex_first in Hitem. injection Hitem as ->. now exists rest. }
  now exists d, hw, first, rest, i, n, r, g, sz, copied.
Qed.

(** X12: every size the mapping returns, for whatever payload, has bandwidth 0
    and price 0 and a RAM figure that is a multiple of 1024, and comes from
    an object with [id], [name] and a [hardware] object whose [hdds] is a
    list starting with an object; its disk is the [size] of that object. *)
Theorem to_size_invariants (data : json) (size : NodeSize.t) :
  _to_size data = Ok size ->
  NodeSize.bandwidth size = 0 /\ NodeSize.price size = 0
  /\ (1024 | NodeSize.ram size)
  /\ exists (d hw first : gmap string json) rest,
       data = JDict d
       /\ d !! "id" = Some (NodeSize.id size)
       /\ d !! "name" = Some (NodeSize.name size)
       /\ d !! "hardware" = Some (JDict hw)
       /\ hw !! "hdds" = Some (JList (JDict first :: rest))
       /\ first !! "size" = Some (NodeSize.disk size).
Proof.
  intros Hsize.
  apply to_size_ok_inv in Hsize
    as (d & hw & first & rest & i & n & r & g & sz & extra
        & -> & Hi & Hn & Hhw & _ & _ & Hhdds & Hsz & _ & ->).
  cbn. repeat split.
  - now exists g.
  - now exists d, hw, first, rest.
Qed.

(** X13: the [extra] of a returned size is the [hardware] block restricted to
    [vcore] and [cores_per_processor]; the same keys at the top level of
    the payload are not read. *)
Theorem to_size_extra (d : gmap string json) (size : NodeSize.t) :
  _to_size (JDict d) = Ok size ->
  exists hw : gmap string json,
    d !! "hardware" = Some (JDict hw)
    /\ forall key,
         NodeSize.extra size !! key
         = if bool_decide (key ∈ ["vcore"; "cores_per_processor"])
           then hw !! key
           else None.
Proof.
  intros Hsize.
  apply to_size_ok_inv in Hsize
    as (d' & hw & first & rest & i & n & r & g & sz & extra
        & [= <-] & _ & _ & Hhw & _ & _ & _ & _ & Hextra & ->).
  exists hw. split; [assumption |]. intros key.
  destruct (copy_present_lookup ["vcore"; "cores_per_processor"] hw ∅)
    as (copied & Hcopied & Hlookup).
  rewrite Hcopied in Hextra. injection Hextra as <-. cbn [NodeSize.extra].
  rewrite Hlookup, lookup_empty. now destruct (hw !! key), (bool_decide _).
Qed.

(** X14: the [hardware] block is read in the order [ram], [int(ram)], [hdds],
    first element, [size], and the first step that fails decides the error:
    a missing [ram], a RAM figure [int()] rejects, a missing [hdds], a first
    disk without [size]. *)
Theorem to_size_hardware_errors (d hw : gmap string json) :
  d !! "hardware" = Some (JDict hw) ->
  (hw !! "ram" = None -> _to_size (JDict d) = Raise (KeyError (JStr "ram")))
  /\ (forall r e, hw !! "ram" = Some r -> py_int r = Raise e ->
        _to_size (JDict d) = Raise e)
  /\ (forall r g, hw !! "ram" = Some r -> py_int r = Ok g ->
        hw !! "hdds" = None ->
        _to_size (JDict d) = Raise (KeyError (JStr "hdds")))
  /\ (forall r g (first : gmap string json) rest,
        hw !! "ram" = Some r -> py_int r = Ok g ->
        hw !! "hdds" = Some (JList (JDict first :: rest)) ->
        first !! "size" = None ->
        _to_size (JDict d) = Raise (KeyError (JStr "size"))).
Proof.
  intros Hhw. unfold _to_size, size_hardware. repeat split.
  - intros Hram. now py_run.
  - intros r e Hram Hint. py_run. rewrite Hint. now py_run.
  - intros r g Hram Hint Hhdds. py_run. rewrite Hint. now py_run.
  - intros r g first rest Hram Hint Hhdds Hsz. py_run. rewrite Hint. py_run.
    rewrite getindex_first. now py_run.
Qed.

Lemma to_size_not_object (data : json) :
  is_object data = false -> _to_size data = Raise TypeError.
Proof.
  intros Hshape. unfold _to_size, size_hardware.
  destruct data; try discriminate; cbn [contains]; py_run; try reflexivity;
    (split_guard; reflexivity).
Qed.



(** X16: a payload that is no object is mapped by none of the four mapping
    functions: each raises [TypeError], also on a list or a text, which
    support the [in] tests the node and size mappings start with. *)
Theorem mappings_not_object (data : json) :
  is_object data = false ->
  _to_node data = Raise TypeError
  /\ _to_image data = Raise TypeError
  /\ _to_location data = Raise TypeError
  /\ _to_size data = Raise TypeError.
Proof.
  intros Hshape. split; [| split; [| split]].
  - now apply to_node_not_object.
  - now apply to_image_not_object.
  - now apply to_location_not_object.
  - now apply to_size_not_object.
Qed.

End SizeMapping.

(** ** The list operations *)

Lemma mapM_cons {A} (f : json -> result A) (x : json) (l : list json) :
  mapM f (x :: l) = (y ← f x; k ← mapM f l; Ok (y :: k)).
Proof. reflexivity. Qed.

Lemma mapM_ok_iff {A} (f : json -> result A) (l : list json) (rs : list A) :
  mapM f l = Ok rs <-> Forall2 (fun x r => f x = Ok r) l rs.
Proof.
  revert rs. induction l as [| x l IH]; intros rs.
  - split.
    + intros [= <-]. constructor.
    + intros Hall. inversion Hall. reflexivity.
  - rewrite mapM_cons. split.
    + intros Hm. apply bind_ok_inv in Hm as (y & Hy & Hm).
      apply bind_ok_inv in Hm as (k & Hk & Hm). injection Hm as <-.
      constructor; [exact Hy | now apply IH].
    + intros Hall. inversion Hall as [| x' y l' k Hy Hk]; subst.
      rewrite Hy. apply IH in Hk. rewrite bind_ok, Hk. reflexivity.
Qed.

Lemma mapM_first_failure {A} (f : json -> result A) (good rest : list json)
    (bad : json) (e : exn) :
  Forall (fun x => exists r, f x = Ok r) good ->
  f bad = Raise e ->
  mapM f (good ++ bad :: rest)%list = Raise e.
Proof.
  intros Hgood Hbad. induction Hgood as [| x good [r Hr] _ IH].
  - cbn [app]. rewrite mapM_cons, Hbad. reflexivity.
  - cbn [app]. rewrite mapM_cons, Hr, bind_ok, IH. reflexivity.
Qed.

(** On a body that is no list the traversal has nothing to map or stops at
    once: the keys of an object and the characters of a text are texts, on
    which the mapping functions raise [TypeError]. *)
Lemma list_map_not_list {A} (f : json -> result A) (body : json) :
  (forall x, is_object x = false -> f x = Raise TypeError) ->
  (forall l, body <> JList l) ->
  list_map f body = Ok [] \/ list_map f body = Raise TypeError.
Proof.
  intros Hf Hshape. unfold list_map.
  assert (forall items : list json,
             Forall (fun x => is_object x = false) items ->
             mapM f items = Ok [] \/ mapM f items = Raise TypeError) as Htexts.
  { intros items Hitems. destruct Hitems as [| x items Hx _]; [now left | right].
    rewrite mapM_cons, (Hf x Hx). reflexivity. }
  destruct body; cbn [py_iter]; rewrite ?bind_raise, ?bind_ok;
    try (right; reflexivity).
  - apply Htexts. apply Forall_fmap, Forall_true. reflexivity.
  - now destruct (Hshape l).
  - apply Htexts. apply Forall_fmap, Forall_true. reflexivity.
Qed.

Section ListOperations.
Context `{PyBuiltins}.

(** X17: when the decoded body is a list, each list operation returns the
    entities of its items one for one, in the order of the response and as
    many of them, and returns only if every item maps. *)
Theorem list_operations_elementwise (connection : Connection) (items : list json) :
  (request connection (get_request "/v1/servers") = Ok (JList items) ->
   forall nodes,
     list_nodes connection = Ok nodes
     <-> Forall2 (fun item node => _to_node item = Ok node) items nodes)
  /\ (request connection (get_request "/v1/datacenters") = Ok (JList items) ->
      forall locations,
        list_locations connection = Ok locations
        <-> Forall2 (fun item loc => _to_location item = Ok loc) items locations)
  /\ (request connection (get_request "/v1/server_appliances") = Ok (JList items) ->
      forall images,
        list_images connection = Ok images
        <-> Forall2 (fun item image => _to_image item = Ok image) items images)
  /\ (request connection (get_request "/v1/servers/fixed_instance_sizes")
      = Ok (JList items) ->
      forall sizes,
        list_sizes connection = Ok sizes
        <-> Forall2 (fun item size => _to_size item = Ok size) items sizes).
Proof.
  unfold list_nodes, list_locations, list_images, list_sizes, list_map.
  split; [| split; [| split]]; intros Hbody entities; rewrite Hbody;
    cbn [py_iter]; rewrite !bind_ok; apply mapM_ok_iff.
Qed.

(** X18: a list operation fails on the first item its mapping rejects, with the
    error of that item, whatever follows it in the response. *)
Theorem list_operations_first_failure (connection : Connection)
    (good rest : list json) (bad : json) (e : exn) :
  (request connection (get_request "/v1/servers")
   = Ok (JList (good ++ bad :: rest)%list) ->
   Forall (fun item => exists node, _to_node item = Ok node) good ->
   _to_node bad = Raise e ->
   list_nodes connection = Raise e)
  /\ (request connection (get_request "/v1/datacenters")
      = Ok (JList (good ++ bad :: rest)%list) ->
      Forall (fun item => exists loc, _to_location item = Ok loc) good ->
      _to_location bad = Raise e ->
      list_locations connection = Raise e)
  /\ (request connection (get_request "/v1/server_appliances")
      = Ok (JList (good ++ bad :: rest)%list) ->
      Forall (fun item => exists image, _to_image item = Ok image) good ->
      _to_image bad = Raise e ->
      list_images connection = Raise e)
  /\ (request connection (get_request "/v1/servers/fixed_instance_sizes")
      = Ok (JList (good ++ bad :: rest)%list) ->
      Forall (fun item => exists size, _to_size item = Ok size) good ->
      _to_size bad = Raise e ->
      list_sizes connection = Raise e).
Proof.
  unfold list_nodes, list_locations, list_images, list_sizes, list_map.
  split; [| split; [| split]]; intros Hbody Hgood Hbad; rewrite Hbody;
    cbn [py_iter]; rewrite !bind_ok; now apply mapM_first_failure.
Qed.

(** X19: a decoded body that is not a list never yields an entity: each list
    operation returns the empty list (the body had nothing to iterate) or
    raises [TypeError]. *)
Theorem list_operations_not_list (connection : Connection) (body : json) :
  (forall l, body <> JList l) ->
  (request connection (get_request "/v1/servers") = Ok body ->
   list_nodes connection = Ok [] \/ list_nodes connection = Raise TypeError)
  /\ (request connection (get_request "/v1/datacenters") = Ok body ->
      list_locations connection = Ok []
      \/ list_locations connection = Raise TypeError)
  /\ (request connection (get_request "/v1/server_appliances") = Ok body ->
      list_images connection = Ok [] \/ list_images connection = Raise TypeError)
  /\ (request connection (get_request "/v1/servers/fixed_instance_sizes") = Ok body ->
      list_sizes connection = Ok [] \/ list_sizes connection = Raise TypeError).
Proof.
  intros Hshape. unfold list_nodes, list_locations, list_images, list_sizes.
  split; [| split; [| split]]; intros Hbody; rewrite Hbody, bind_ok;
    apply list_map_not_list; try assumption.
  - apply to_node_not_object.
  - apply to_location_not_object.
  - apply to_image_not_object.
  - apply to_size_not_object.
Qed.

(** ** More on [create_node] *)

(** X20: a response that passes the status check with a decoded body that is no
    object, such as the empty body of a 204, makes [create_node] raise
    [AttributeError]: only a dictionary has [get]. *)
Theorem create_node_body_not_object connection name size image location
    (body : json) :
  request connection (create_node_request name size image location) = Ok body ->
  is_object body = false ->
  create_node connection name size image location = Raise (AttributeError "get").
Proof.
  intros Hbody Hshape. unfold create_node. rewrite Hbody, bind_ok.
  destruct body; try reflexivity. discriminate.
Qed.

(** X21: whatever node [create_node] returns is the node mapping of a decoded
    object whose [status] is absent or an object; a text [status], "ERROR"
    or other, never comes with a node. *)
Theorem create_node_returns connection name size image location (node : Node.t) :
  create_node connection name size image location = Ok node ->
  exists d : gmap string json,
    request connection (create_node_request name size image location)
    = Ok (JDict d)
    /\ _to_node (JDict d) = Ok node
    /\ (d !! "status" = None
        \/ exists status : gmap string json, d !! "status" = Some (JDict status)).
Proof.
  unfold create_node. intros Hnode.
  apply bind_ok_inv in Hnode as (body & Hbody & Hnode).
  apply bind_ok_inv in Hnode as (status & Hstatus & Hnode).
  destruct body; try discriminate. exists d.
  destruct (eq_text status "ERROR").
  - apply bind_ok_inv in Hnode as (m & _ & Hnode).
    apply bind_ok_inv in Hnode as (em & _ & Hnode). discriminate.
  - split; [exact Hbody | split; [exact Hnode |]].
    destruct (to_node_ok_shape d node Hnode)
      as (_ & _ & [Hnone | (fields & v & Hsome & _)]); eauto.
Qed.

End ListOperations.

(** ** Creation of driver instances *)

Example mro_v1_node_driver :
  cls.mro cls.OneAndOne_v1_NodeDriver
  = [cls.OneAndOne_v1_NodeDriver; cls.OneAndOne_v1_BaseDriver;
     cls.OneAndOneBaseDriver; cls.OneAndOneNodeDriver].
Proof. reflexivity. Qed.

(** X22: calling one of the two version-1 classes directly never creates an
    instance: both find [OneAndOneBaseDriver.__new__] first, whose [else]
    branch fails with [TypeError] on the call of [NotImplemented], whatever
    the key, the secret and the version. *)
Theorem create_instance_v1_classes (key secret : option string) (api_version : string) :
  create_instance cls.OneAndOne_v1_BaseDriver key secret api_version = Raise TypeError
  /\ create_instance cls.OneAndOne_v1_NodeDriver key secret api_version
     = Raise TypeError.
Proof. split; reflexivity. Qed.

(** X23: no call of any of the four classes raises the "Unsupported API version"
    error, and an instance is only ever created by calling a facade class,
    of the version-1 class of its family. *)
Theorem create_instance_outcomes (c : cls.t) (key secret : option string)
    (api_version : string) :
  (forall msg, create_instance c key secret api_version
               <> Raise (NotImplementedError msg))
  /\ forall created, create_instance c key secret api_version = Ok created ->
       (c = cls.OneAndOneBaseDriver /\ created = cls.OneAndOne_v1_BaseDriver)
       \/ (c = cls.OneAndOneNodeDriver /\ created = cls.OneAndOne_v1_NodeDriver
           /\ is_Some key).
Proof.
  split.
  - intros msg. destruct c, key; discriminate.
  - intros created. destruct c, key; cbn; intros [= <-]; eauto.
Qed.

(** X24: the base facade checks no credentials: it creates the version-1 base
    driver also without a key, where the node facade raises
    [InvalidCredsError]; with a key the node facade does what [__new__]
    restricted to its own two classes does. *)
Theorem create_instance_facades (key secret : option string) (api_version : string) :
  create_instance cls.OneAndOneBaseDriver key secret api_version
  = Ok cls.OneAndOne_v1_BaseDriver
  /\ create_instance cls.OneAndOneNodeDriver None secret api_version
     = Raise (InvalidCredsError (JStr "key missing for v1 authentication"))
  /\ create_instance cls.OneAndOneNodeDriver key secret api_version
     = match construct_facade key secret api_version with
       | Ok created => Ok (class_of created)
       | Raise e => Raise e
       end.
Proof. repeat split. now destruct key. Qed.

(** ** The further properties at concrete inputs *)

Lemma add_default_headers_lookup_witness :
  add_default_headers (JStr "k") caller_headers !! "X-token" = Some (JStr "k")
  /\ "Accept" <> "X-token" /\ "Accept" <> "Content-Type"
  /\ add_default_headers (JStr "k") caller_headers !! "Accept"
     = caller_headers !! "Accept".
Proof.
  split; [apply (add_default_headers_lookup (JStr "k") caller_headers) |].
  split; [discriminate | split; [discriminate |]].
  apply (proj1 (proj2 (proj2 (add_default_headers_lookup (JStr "k") caller_headers))));
    discriminate.
Defined.

Lemma parse_error_unauthorized_witness :
  status unauthorized_without_message = 401
  /\ @parse_error sample_builtins unauthorized_without_message
     = Raise (KeyError (JStr "message")).
Proof.
  split; [reflexivity |].
  apply (proj1 (proj2 (proj2 (@parse_error_unauthorized sample_builtins
                                unauthorized_without_message eq_refl)))
           {[ "error" := JStr "denied" ]}); reflexivity.
Defined.

Lemma parse_error_returns_witness :
  @parse_error sample_builtins failed_with_message = Ok (JStr "boom (code: 500)")
  /\ status failed_with_message <> 401.
Proof.
  split; [reflexivity |].
  apply (@parse_error_returns sample_builtins failed_with_message
           (JStr "boom (code: 500)")).
  reflexivity.
Defined.

Lemma to_node_extra_witness :
  _to_node (JDict full_node_payload) = Ok deploying_node
  /\ Node.extra deploying_node !! "image_id" = full_node_payload !! "image_id"
  /\ Node.extra deploying_node !! "datacenter" = None.
Proof.
  split; [reflexivity |]. split.
  - apply (to_node_extra full_node_payload deploying_node eq_refl "image_id").
  - apply (to_node_extra full_node_payload deploying_node eq_refl "datacenter").
Defined.

Lemma to_node_public_ips_witness :
  _to_node (JDict powered_on_payload) = Ok powered_on_node
  /\ Node.public_ips powered_on_node = [JStr "1.2.3.4"]
  /\ Node.private_ips powered_on_node = None.
Proof.
  split; [reflexivity |].
  apply (to_node_public_ips powered_on_payload powered_on_node). reflexivity.
Defined.

Lemma to_node_succeeds_iff_witness :
  (exists node, _to_node (JDict full_node_payload) = Ok node)
  /\ ~ (exists node, _to_node (JDict lowercase_error_body) = Ok node).
Proof.
  split.
  - apply (proj2 (to_node_succeeds_iff full_node_payload)).
    split; [now eexists | split; [now eexists | right]].
    exists {[ "state" := JStr "DEPLOYING"; "percent" := JInt 20 ]}, (JStr "DEPLOYING").
    repeat split.
  - intros Hnode.
    apply (proj1 (to_node_succeeds_iff lowercase_error_body)) in Hnode
      as (_ & _ & [Hnone | (status & state & Hstatus & _)]); discriminate.
Defined.

Lemma to_node_state_reflects_witness :
  _to_node (JDict powered_on_payload) = Ok powered_on_node
  /\ Node.state powered_on_node <> NodeState.UNKNOWN
  /\ exists (status : gmap string json) (s : string),
       powered_on_payload !! "status" = Some (JDict status)
       /\ status !! "state" = Some (JStr s)
       /\ ((Node.state powered_on_node = NodeState.PENDING /\ s = "DEPLOYING")
           \/ (Node.state powered_on_node = NodeState.REBOOTING /\ s = "POWERED_OFF")
           \/ (Node.state powered_on_node = NodeState.RUNNING /\ s = "POWERED_ON")).
Proof.
  split; [reflexivity | split; [discriminate |]].
  apply (to_node_state_reflects powered_on_payload powered_on_node);
    [reflexivity | discriminate].
Defined.

Lemma to_image_fields_witness :
  exists image, _to_image (JDict image_payload) = Ok image
    /\ NodeImage.id image = JStr "i1" /\ NodeImage.name image = JStr "ubuntu"
    /\ NodeImage.extra image !! "os" = Some (JStr "Linux")
    /\ NodeImage.extra image !! "os_version" = Some (JStr "Ubuntu 14.04")
    /\ NodeImage.extra image !! "architecture" = Some (JInt 64)
    /\ dom (NodeImage.extra image) = {[ "os"; "os_version"; "architecture" ]}.
Proof.
  apply (to_image_fields image_payload); reflexivity.
Defined.

Example to_image_without_os_version :
  _to_image (JDict (delete "os_version" (delete "name" image_payload)))
  = Raise (KeyError (JStr "os_version")).
Proof. reflexivity. Qed.

Lemma to_size_invariants_witness :
  @_to_size sample_builtins (JDict rich_size_payload) = Ok rich_size
  /\ NodeSize.bandwidth rich_size = 0 /\ NodeSize.price rich_size = 0
  /\ (1024 | NodeSize.ram rich_size).
Proof.
  split; [reflexivity |].
  destruct (@to_size_invariants sample_builtins (JDict rich_size_payload)
              rich_size eq_refl) as (Hbandwidth & Hprice & Hram & _).
  now repeat split.
Defined.

Lemma to_size_extra_witness :
  @_to_size sample_builtins (JDict rich_size_payload) = Ok rich_size
  /\ rich_size_payload !! "vcore" = Some (JInt 99)
  /\ exists hw : gmap string json,
       rich_size_payload !! "hardware" = Some (JDict hw)
       /\ NodeSize.extra rich_size !! "vcore" = hw !! "vcore".
Proof.
  split; [reflexivity | split; [reflexivity |]].
  destruct (@to_size_extra sample_builtins rich_size_payload rich_size eq_refl)
    as (hw & Hhw & Hextra).
  exists hw. split; [exact Hhw | exact (Hextra "vcore")].
Defined.

Lemma to_size_hardware_errors_witness :
  @_to_size sample_builtins (JDict bad_ram_payload)
  = Raise (ValueError "invalid literal for int() with base 10: 'two'")
  /\ @_to_size sample_builtins (JDict (size_payload [JDict ∅]))
     = Raise (KeyError (JStr "size")).
Proof.
  split.
  - pose proof (@to_size_hardware_errors sample_builtins bad_ram_payload
                  {[ "ram" := JStr "two"; "hdds" := JList [] ]}) as Herrors.
    destruct Herrors as (_ & Hint & _); [reflexivity |].
    apply (Hint (JStr "two")); reflexivity.
  - pose proof (@to_size_hardware_errors sample_builtins (size_payload [JDict ∅])
                  (size_hardware_block [JDict ∅])) as Herrors.
    destruct Herrors as (_ & _ & _ & Hsize); [reflexivity |].
    apply (Hsize (JStr "2") 2 ∅ []); reflexivity.
Defined.

Lemma mappings_not_object_witness :
  _to_node (JList [JStr "status"]) = Raise TypeError
  /\ _to_image (JStr "os") = Raise TypeError
  /\ _to_location JNull = Raise TypeError
  /\ @_to_size sample_builtins (JStr "hardware") = Raise TypeError.
Proof.
  split; [| split; [| split]].
  - apply (@mappings_not_object sample_builtins (JList [JStr "status"])). reflexivity.
  - apply (@mappings_not_object sample_builtins (JStr "os")). reflexivity.
  - apply (@mappings_not_object sample_builtins JNull). reflexivity.
  - apply (@mappings_not_object sample_builtins (JStr "hardware")). reflexivity.
Defined.

Lemma list_operations_elementwise_witness :
  @list_nodes sample_builtins
    (json_server 200 (JList [JDict powered_on_payload; JDict full_node_payload]))
  = Ok [powered_on_node; deploying_node]
  /\ @list_locations sample_builtins (json_server 200 (JList [JDict london_payload]))
     = Ok [london].
Proof.
  split.
  - apply (proj1 (@list_operations_elementwise sample_builtins
                    (json_server 200
                       (JList [JDict powered_on_payload; JDict full_node_payload]))
                    [JDict powered_on_payload; JDict full_node_payload])
             eq_refl).
    repeat constructor.
  - apply (proj1 (proj2 (@list_operations_elementwise sample_builtins
                           (json_server 200 (JList [JDict london_payload]))
                           [JDict london_payload]))
             eq_refl).
    repeat constructor.
Defined.

Lemma list_operations_first_failure_witness :
  @list_nodes sample_builtins
    (json_server 200
       (JList [JDict powered_on_payload; JDict payload_without_state;
               JDict full_node_payload]))
  = Raise (KeyError (JStr "state")).
Proof.
  apply (proj1 (@list_operations_first_failure sample_builtins
                  (json_server 200
                     (JList [JDict powered_on_payload; JDict payload_without_state;
                             JDict full_node_payload]))
                  [JDict powered_on_payload] [JDict full_node_payload]
                  (JDict payload_without_state) (KeyError (JStr "state"))));
    [reflexivity | | reflexivity].
  constructor; [now eexists | constructor].
Defined.

Lemma list_operations_not_list_witness :
  @list_nodes sample_builtins (json_server 200 (JDict powered_on_payload))
  = Raise TypeError
  /\ @list_sizes sample_builtins (json_server 200 (JDict ∅)) = Ok [].
Proof.
  split.
  - destruct (@list_operations_not_list sample_builtins
                (json_server 200 (JDict powered_on_payload))
                (JDict powered_on_payload)) as (Hnodes & _); [discriminate |].
    destruct Hnodes as [Hempty | Hraise]; [reflexivity | | exact Hraise].
    vm_compute in Hempty. discriminate Hempty.
  - destruct (@list_operations_not_list sample_builtins
                (json_server 200 (JDict ∅)) (JDict ∅)) as (_ & _ & _ & Hsizes);
      [discriminate |].
    destruct Hsizes as [Hempty | Hraise]; [reflexivity | exact Hempty |].
    vm_compute in Hraise. discriminate Hraise.
Defined.

Lemma create_node_body_not_object_witness :
  @create_node sample_builtins (json_server 204 (JStr ""))
    (JStr "web") (sample_size 2048) (sample_image "ubuntu") None
  = Raise (AttributeError "get").
Proof.
  apply (@create_node_body_not_object sample_builtins (json_server 204 (JStr ""))
           (JStr "web") (sample_size 2048) (sample_image "ubuntu") None (JStr ""));
    reflexivity.
Defined.

Lemma create_node_returns_witness :
  @create_node sample_builtins (constant_server 202 powered_on_payload)
    (JStr "web") (sample_size 2048) (sample_image "ubuntu") None
  = Ok powered_on_node
  /\ exists d : gmap string json,
       _to_node (JDict d) = Ok powered_on_node
       /\ (d !! "status" = None
           \/ exists status : gmap string json, d !! "status" = Some (JDict status)).
Proof.
  split; [reflexivity |].
  destruct (@create_node_returns sample_builtins
              (constant_server 202 powered_on_payload) (JStr "web")
              (sample_size 2048) (sample_image "ubuntu") None powered_on_node
              eq_refl) as (d & _ & Hnode & Hstatus).
  now exists d.
Defined.

Lemma create_instance_outcomes_witness :
  create_instance cls.OneAndOneNodeDriver (Some "k") None "v3"
  = Ok cls.OneAndOne_v1_NodeDriver
  /\ ((cls.OneAndOneNodeDriver = cls.OneAndOneBaseDriver
        /\ cls.OneAndOne_v1_NodeDriver = cls.OneAndOne_v1_BaseDriver)
       \/ (cls.OneAndOneNodeDriver = cls.OneAndOneNodeDriver
           /\ cls.OneAndOne_v1_NodeDriver = cls.OneAndOne_v1_NodeDriver
           /\ is_Some (Some "k"))).
Proof.
  split; [reflexivity |].
  apply (create_instance_outcomes cls.OneAndOneNodeDriver (Some "k") None "v3").
  reflexivity.
Defined.

